(** * Portfolio admin area: media normalization, gallery viewer, session gate
      and upload form

    A shallow embedding of the client-side logic of the portfolio site:

    - [AdminPage]      : the dashboard of [src/app/admin/login/page.tsx]
                         (second document of that file): [ProjectPreview],
                         [ProjectCard] and the authentication effect, with
                         the calls of its asynchronous listener as they
                         interleave at their [await]s;
    - [PortfolioPage]  : the public page (second document of
                         [src/app/admin/components/UploadForm.tsx]):
                         [ProjectPreviewModal], the page state that mounts
                         it, and the first-media helpers;
    - [UploadForm]     : [onSubmit] of the upload/edit form;
    - [Store]          : the update-merge of the document store, which is
                         not part of the source.

    JavaScript numbers are modelled by [jsnum] (an exact integer or NaN; all
    the integers that occur are array lengths and indices, far below 2^53),
    strings by [string] (the UTF-8 encoding of the text, byte by byte), a
    missing or [undefined] field by [None], and calls
    into the external services (toast, router, Firebase, Cloudinary) by the
    [Event]s they leave in a log, in program order. *)

From Stdlib Require Import ZArith List String Ascii Bool Lia.
Import ListNotations.
Local Open Scope string_scope.
Local Open Scope list_scope.
Local Open Scope Z_scope.

(* ===================================================================== *)
(** * JavaScript values *)
(* ===================================================================== *)

(** A JavaScript number, as far as index arithmetic needs it. *)
Inductive jsnum : Type :=
| JInt (z : Z)
| JNaN.

Definition js_add (a b : jsnum) : jsnum :=
  match a, b with
  | JInt x, JInt y => JInt (x + y)
  | _, _ => JNaN
  end.

Definition js_sub (a b : jsnum) : jsnum :=
  match a, b with
  | JInt x, JInt y => JInt (x - y)
  | _, _ => JNaN
  end.

(** [a % b]: the remainder takes the sign of the dividend, and a zero
    divisor gives NaN (it does not throw). *)
Definition js_rem (a b : jsnum) : jsnum :=
  match a, b with
  | JInt x, JInt y => if y =? 0 then JNaN else JInt (Z.rem x y)
  | _, _ => JNaN
  end.

(** Truthiness of a value that is a string or [undefined]. *)
Definition truthy (s : option string) : bool :=
  match s with
  | Some v => negb (v =? EmptyString)%string
  | None => false
  end.

(** The string behind a truthy optional string. *)
Definition str (s : option string) : string :=
  match s with
  | Some v => v
  | None => EmptyString
  end.

(** [s.length] of an array, as a number. *)
Definition len {A : Type} (l : list A) : Z := Z.of_nat (List.length l).

(* ===================================================================== *)
(** * Data model *)
(* ===================================================================== *)

Inductive ProjectType : Type := graphics | motion | frontend.

Inductive MediaType : Type := image | video.

Definition ProjectType_eqb (a b : ProjectType) : bool :=
  match a, b with
  | graphics, graphics | motion, motion | frontend, frontend => true
  | _, _ => false
  end.

Module MediaItem.
Record t : Type := mk { type : MediaType; url : string }.
End MediaItem.

Module Project.
(** [media] is [None] on a record that has no [media] array (a legacy
    record), [mediaUrl] and [liveLink] are [None] when undefined. *)
Record t : Type := mk {
  id : string;
  title : string;
  description : string;
  type : ProjectType;
  media : option (list MediaItem.t);
  mediaUrl : option string;
  liveLink : option string;
  tags : list string;
  views : Z;
  likes : Z
}.
End Project.

(** An array-valued field that may be missing: the JavaScript operations
    that the pages apply to [project.media]. *)

(** Truthiness: an array is truthy, [undefined] is not. *)
Definition truthyArray {A : Type} (a : option (list A)) : bool :=
  match a with Some _ => true | None => false end.

(** [Array.isArray(a)] *)
Definition isArray {A : Type} (a : option (list A)) : bool :=
  match a with Some _ => true | None => false end.

(** [a.length] *)
Definition lengthOf {A : Type} (a : option (list A)) : Z :=
  match a with Some l => len l | None => 0 end.

(** The array itself, as a list. *)
Definition items {A : Type} (a : option (list A)) : list A :=
  match a with Some l => l | None => [] end.

(** [a[0]] *)
Definition first {A : Type} (a : option (list A)) : option A :=
  nth_error (items a) 0.

(* ===================================================================== *)
(** * External services *)
(* ===================================================================== *)

Module User.
(** The Firebase identity: [email] is [None] when [null]. *)
Record t : Type := mk { uid : string; email : option string }.
End User.

Module File.
(** A browser [File], as far as the form reads it. *)
Record t : Type := mk { name : string; size : Z }.
End File.

(** The sentinel that [serverTimestamp()] returns. *)
Inductive FieldValue : Type := ServerTimestamp.

Module ProjectData.
(** The record that [onSubmit] assembles; the fields of the create-only
    spread are [None] on an update, [liveLink] is [None] when
    [undefined]. *)
Record t : Type := mk {
  title : string;
  description : string;
  type : ProjectType;
  media : list MediaItem.t;
  liveLink : option string;
  tags : list string;
  updatedAt : FieldValue;
  createdAt : option FieldValue;
  userId : option string;
  userEmail : option string;
  status : option string;
  featured : option bool;
  views : option Z;
  likes : option Z
}.
End ProjectData.

Inductive ToastType : Type := success | error | warning.

(** The calls that leave the component, in the order they are made. The
    setters of the form's own display state are logged too: [onSubmit]
    writes them and never reads them back. [BumpUploadProgress] is the
    call [setUploadProgress(prev => Math.min(prev + 10, 90))] that the
    interval of an upload makes each time it fires. *)
Inductive Event : Type :=
| ShowToast (type : ToastType) (message : string)
| ConsoleError (label : string)
| GetDoc (collection id : string)
| SignOut
| RouterPush (path : string)
| RouterPushAfter (ms : Z) (path : string)
| CloudinaryPost (cloudName : string) (resourceType : MediaType) (file : File.t)
| AddDoc (collection : string) (data : ProjectData.t)
| UpdateDoc (collection id : string) (data : ProjectData.t)
| SetIsLoading (b : bool)
| SetUploadProgress (n : Z)
| BumpUploadProgress
| SetSelectedFiles (files : list File.t)
| FormReset
| OnFinish.

(** What [getDoc] on the role record comes back with: a rejection, a
    snapshot that does not exist, or one that exists with its [role]
    ([None] when the field is missing or is not a string). *)
Inductive GetDocResult : Type :=
| GetDocRejects
| DocMissing
| DocExists (role : option string).

(** [userData?.role === 'admin'] *)
Definition roleIsAdmin (role : option string) : bool :=
  match role with
  | Some r => (r =? "admin")%string
  | None => false
  end.

(** The outcome of the POST to the media host: the request rejects, or it
    answers and [response.json()] rejects, or it answers with a status that
    is not ok (with the [error.message] of its body, if any), or it answers
    ok with a [secure_url]. *)
Inductive PostResult : Type :=
| PostRejects (message : string)
| PostBadBody (message : string)
| PostNotOk (errorMessage : option string)
| PostOk (secure_url : string).

Inductive WriteResult : Type :=
| WriteOk
| WriteRejects (message : string).

(* ===================================================================== *)
(** * Asynchronous code with exceptions: a log of events and a result *)
(* ===================================================================== *)

(** How a block ends: with a value or with a thrown error (its message). *)
Inductive Res (A : Type) : Type :=
| Val (a : A)
| Thrown (message : string).
Arguments Val {A} a.
Arguments Thrown {A} message.

Definition M (A : Type) : Type := (list Event * Res A)%type.

Definition ret {A : Type} (a : A) : M A := ([], Val a).

Definition throw {A : Type} (message : string) : M A := ([], Thrown message).

Definition emit (e : Event) : M unit := ([e], Val tt).

Definition bind {A B : Type} (m : M A) (k : A -> M B) : M B :=
  match m with
  | (l, Val a) => (l ++ fst (k a), snd (k a))
  | (l, Thrown message) => (l, Thrown message)
  end.

(** [try { m } catch (error) { handler(error.message) }] *)
Definition tryCatch {A : Type} (m : M A) (handler : string -> M A) : M A :=
  match m with
  | (l, Val a) => (l, Val a)
  | (l, Thrown message) => (l ++ fst (handler message), snd (handler message))
  end.

(** [{ m } finally { final }], for a [final] that does not throw. *)
Definition finally {A : Type} (m : M A) (final : M unit) : M A :=
  match m with
  | (l, r) => (l ++ fst final, r)
  end.

Notation "x <- m ;; k" := (bind m (fun x => k))
  (at level 61, m at next level, right associativity).
Notation "m ;; k" := (bind m (fun _ => k))
  (at level 61, right associativity).

Definition trace {A : Type} (m : M A) : list Event := fst m.

(* ===================================================================== *)
(** * Strings *)
(* ===================================================================== *)

(** The double quote, for messages that quote a name. *)
Definition dquote : string := String (ascii_of_nat 34) EmptyString.

(** The white space that [trim] removes is the WhiteSpace and
    LineTerminator of ECMAScript: U+0009 to U+000D, U+0020, U+00A0, U+1680,
    U+2000 to U+200A, U+2028, U+2029, U+202F, U+205F, U+3000 and U+FEFF. In
    UTF-8 these are the one-byte characters of [isSpace], the two bytes of
    [space2] and the three-byte sequences of [space3]. *)

(** Tab, line feed, vertical tab, form feed, carriage return and space. *)
Definition isSpace (c : ascii) : bool :=
  let n := nat_of_ascii c in
  (Nat.eqb n 32 || (Nat.leb 9 n && Nat.leb n 13))%bool.

(** U+00A0, the no-break space: C2 A0. *)
Definition space2 (c1 c2 : ascii) : bool :=
  (Nat.eqb (nat_of_ascii c1) 194 && Nat.eqb (nat_of_ascii c2) 160)%bool.

(** U+1680 (E1 9A 80); U+2000 to U+200A, U+2028, U+2029 and U+202F (E2 80
    followed by 80 to 8A, A8, A9 or AF); U+205F (E2 81 9F); U+3000 (E3 80
    80); U+FEFF (EF BB BF). *)
Definition space3 (c1 c2 c3 : ascii) : bool :=
  let n1 := nat_of_ascii c1 in
  let n2 := nat_of_ascii c2 in
  let n3 := nat_of_ascii c3 in
  ((Nat.eqb n1 225 && Nat.eqb n2 154 && Nat.eqb n3 128)
   || (Nat.eqb n1 226 && Nat.eqb n2 128
       && ((Nat.leb 128 n3 && Nat.leb n3 138)
           || Nat.eqb n3 168 || Nat.eqb n3 169 || Nat.eqb n3 175))
   || (Nat.eqb n1 226 && Nat.eqb n2 129 && Nat.eqb n3 159)
   || (Nat.eqb n1 227 && Nat.eqb n2 128 && Nat.eqb n3 128)
   || (Nat.eqb n1 239 && Nat.eqb n2 187 && Nat.eqb n3 191))%bool.

(** What follows the white space character that [s] begins with, [None]
    when it begins with none. *)
Definition dropSpace (s : string) : option string :=
  match s with
  | String c1 r1 =>
      if isSpace c1 then Some r1
      else match r1 with
           | String c2 r2 =>
               if space2 c1 c2 then Some r2
               else match r2 with
                    | String c3 r3 => if space3 c1 c2 c3 then Some r3 else None
                    | EmptyString => None
                    end
           | EmptyString => None
           end
  | EmptyString => None
  end.

(** [s] is one white space character. *)
Definition isSpaceChar (s : string) : bool :=
  match dropSpace s with
  | Some EmptyString => true
  | _ => false
  end.

Fixpoint trimStart (s : string) : string :=
  match s with
  | String c1 r1 =>
      if isSpace c1 then trimStart r1
      else match r1 with
           | String c2 r2 =>
               if space2 c1 c2 then trimStart r2
               else match r2 with
                    | String c3 r3 => if space3 c1 c2 c3 then trimStart r3 else s
                    | EmptyString => s
                    end
           | EmptyString => s
           end
  | EmptyString => EmptyString
  end.

(** The end is trimmed from the right: [String c (trimEnd rest)] is
    dropped when it is one white space character, which is then the last
    character of what is left of [s]. *)
Fixpoint trimEnd (s : string) : string :=
  match s with
  | EmptyString => EmptyString
  | String c rest =>
      if isSpaceChar (String c (trimEnd rest)) then EmptyString
      else String c (trimEnd rest)
  end.

Definition trim (s : string) : string := trimEnd (trimStart s).

(** [s.split(',')] *)
Fixpoint splitComma (s : string) : list string :=
  match s with
  | EmptyString => [EmptyString]
  | String c rest =>
      if Ascii.eqb c (ascii_of_nat 44) then EmptyString :: splitComma rest
      else match splitComma rest with
           | piece :: pieces => String c piece :: pieces
           | [] => [String c EmptyString]
           end
  end.

(* ===================================================================== *)
(** * The gallery viewer, shared vocabulary *)
(* ===================================================================== *)

(** What an event handler of the viewer ends up calling. *)
Inductive Call : Type :=
| CallGoToNext
| CallGoToPrevious
| CallSetIndex (idx : Z)
| CallOnClose.

(** What the user can do to an open viewer. *)
Inductive UiEvent : Type :=
| KeyDown (key : string)
| ClickPrevious
| ClickNext
| ClickThumbnail (idx : nat).

(** [mediaItems[currentMediaIndex]]: [undefined] out of range or at NaN. *)
Definition itemAt (mediaItems : list MediaItem.t) (idx : jsnum) : option MediaItem.t :=
  match idx with
  | JInt z => if z <? 0 then None else nth_error mediaItems (Z.to_nat z)
  | JNaN => None
  end.

Definition isSome {A : Type} (o : option A) : bool :=
  match o with Some _ => true | None => false end.

(* ===================================================================== *)
(** * Admin dashboard: ProjectPreview and ProjectCard *)
(* ===================================================================== *)

Module AdminPage.

(** [ProjectPreview.mediaItems] *)
Definition mediaItems (project : Project.t) : list MediaItem.t :=
  if truthyArray (Project.media project) && isArray (Project.media project)
     && (0 <? lengthOf (Project.media project))
  then items (Project.media project)
  else if truthy (Project.mediaUrl project)
  then [MediaItem.mk (if ProjectType_eqb (Project.type project) motion then video else image)
                      (str (Project.mediaUrl project))]
  else [].

(** [ProjectCard.firstMedia] *)
Definition firstMedia (project : Project.t) : option MediaItem.t :=
  if truthyArray (Project.media project) && isArray (Project.media project)
     && (0 <? lengthOf (Project.media project))
  then first (Project.media project)
  else if truthy (Project.mediaUrl project)
  then Some (MediaItem.mk (if ProjectType_eqb (Project.type project) motion then video else image)
                      (str (Project.mediaUrl project)))
  else None.

Definition currentMedia (project : Project.t) (currentMediaIndex : jsnum) :=
  itemAt (mediaItems project) currentMediaIndex.

Definition hasMultipleMedia (project : Project.t) : bool :=
  1 <? len (mediaItems project).

Definition goToNext (project : Project.t) (prev : jsnum) : jsnum :=
  js_rem (js_add prev (JInt 1)) (JInt (len (mediaItems project))).

Definition goToPrevious (project : Project.t) (prev : jsnum) : jsnum :=
  js_rem (js_add (js_sub prev (JInt 1)) (JInt (len (mediaItems project))))
         (JInt (len (mediaItems project))).

Definition handleKeyPress (project : Project.t) (key : string) : option Call :=
  if (key =? "ArrowRight")%string && hasMultipleMedia project then Some CallGoToNext
  else if (key =? "ArrowLeft")%string && hasMultipleMedia project then Some CallGoToPrevious
  else if (key =? "Escape")%string then Some CallOnClose
  else None.

(** The arrows are rendered inside [{currentMedia && ...}] under
    [{hasMultipleMedia && ...}], the thumbnail strip under
    [{hasMultipleMedia && ...}], one button per item. *)
Definition arrowsRendered (project : Project.t) (currentMediaIndex : jsnum) : bool :=
  isSome (currentMedia project currentMediaIndex) && hasMultipleMedia project.

Definition thumbnailRendered (project : Project.t) (idx : nat) : bool :=
  hasMultipleMedia project && (Z.of_nat idx <? len (mediaItems project)).

(** The handler call an event leads to; [None] when the control is not
    on screen or the key is not bound. *)
Definition dispatch (project : Project.t) (currentMediaIndex : jsnum)
           (ev : UiEvent) : option Call :=
  match ev with
  | KeyDown key => handleKeyPress project key
  | ClickPrevious =>
      if arrowsRendered project currentMediaIndex then Some CallGoToPrevious else None
  | ClickNext =>
      if arrowsRendered project currentMediaIndex then Some CallGoToNext else None
  | ClickThumbnail idx =>
      if thumbnailRendered project idx then Some (CallSetIndex (Z.of_nat idx)) else None
  end.

(** The effect of a handler call on [currentMediaIndex]; [onClose] is
    the parent's business and leaves the index alone. *)
Definition perform (project : Project.t) (c : Call) (currentMediaIndex : jsnum) : jsnum :=
  match c with
  | CallGoToNext => goToNext project currentMediaIndex
  | CallGoToPrevious => goToPrevious project currentMediaIndex
  | CallSetIndex idx => JInt idx
  | CallOnClose => currentMediaIndex
  end.

Definition step (project : Project.t) (currentMediaIndex : jsnum) (ev : UiEvent) : jsnum :=
  match dispatch project currentMediaIndex ev with
  | Some c => perform project c currentMediaIndex
  | None => currentMediaIndex
  end.

(** The open preview: the project shown and the viewer's state. *)
Record Preview : Type := mkPreview {
  project : Project.t;
  currentMediaIndex : jsnum
}.

(** [setPreviewProject]: the viewer is rendered by
    [{previewProject && <ProjectPreview project={previewProject} .../>}].
    From the closed state the component mounts and [useState(0)] runs;
    [null] unmounts it; a project put in place of another one re-renders
    the mounted component, whose state is kept. *)
Definition setPreviewProject (next : option Project.t) (st : option Preview)
  : option Preview :=
  match next, st with
  | None, _ => None
  | Some p, None => Some (mkPreview p (JInt 0))
  | Some p, Some v => Some (mkPreview p (currentMediaIndex v))
  end.

(** What happens to the preview while the panel is rendered: the preview
    button of a card ([onPreview={setPreviewProject}]); the close button
    or the backdrop of the viewer ([onClose]) or the deletion of a project,
    which all call [setPreviewProject(null)]; and an event inside the
    viewer, where Escape calls [onClose] too. *)
Inductive PreviewEvent : Type :=
| Open (p : Project.t)
| Shut
| InViewer (ev : UiEvent).

Definition previewStep (st : option Preview) (e : PreviewEvent) : option Preview :=
  match e with
  | Open p => setPreviewProject (Some p) st
  | Shut => setPreviewProject None st
  | InViewer ev =>
      match st with
      | Some v =>
          match dispatch (project v) (currentMediaIndex v) ev with
          | Some CallOnClose => setPreviewProject None st
          | _ => Some (mkPreview (project v) (step (project v) (currentMediaIndex v) ev))
          end
      | None => None
      end
  end.


(** ** The authentication effect *)

(** [user] is [undefined] until the first verdict, then [null] or the
    identity. *)
Inductive UserState : Type :=
| UserUndefined
| UserNull
| UserIs (u : User.t).

Record AuthState : Type := mkAuthState {
  user : UserState;
  isAdmin : bool;
  checkingAuth : bool;
  hasShownWelcome : bool
}.

(** The state of [AdminPage] when it mounts. *)
Definition initialAuthState : AuthState :=
  mkAuthState UserUndefined false true false.

(** One call of the listener by the identity provider, with what the
    services answer during it. *)
Record Delivery : Type := mkDelivery {
  currentUser : option User.t;
  userDoc : GetDocResult;
  signOutOk : bool
}.

(** The places where the listener reads [isMounted]. *)
Inductive CheckPoint : Type := AtEntry | AfterGetDoc | InCatch.

Definition loginPath : string := "/admin/login".

Definition grantedMessage : string := "✓ Admin access granted".

(** The [catch] block of the listener. *)
Definition onCatch (isMounted : CheckPoint -> bool) (st : AuthState)
           (log : list Event) : AuthState * list Event :=
  if negb (isMounted InCatch) then (st, log)
  else (mkAuthState UserNull false false (hasShownWelcome st),
        log ++ [ConsoleError "Error checking admin status:";
                ShowToast error "Failed to verify admin status";
                RouterPush loginPath]).

(** The listener passed to [onAuthStateChanged]. [shownWelcome] is the
    [hasShownWelcome] that the closure captured when the effect ran;
    [st] is the state that the setters update. *)
Definition authCallback (isMounted : CheckPoint -> bool) (shownWelcome : bool)
           (d : Delivery) (st : AuthState) : AuthState * list Event :=
  if negb (isMounted AtEntry) then (st, [])
  else
    match currentUser d with
    | None =>
        (mkAuthState UserNull false false (hasShownWelcome st),
         [RouterPush loginPath])
    | Some u =>
        let log := [GetDoc "users" (User.uid u)] in
        match userDoc d with
        | GetDocRejects => onCatch isMounted st log
        | DocMissing =>
            if negb (isMounted AfterGetDoc) then (st, log)
            else
              let st1 := mkAuthState UserNull false false (hasShownWelcome st) in
              let log1 :=
                log ++ [ConsoleError "Firestore document not found for UID:";
                        ShowToast error "User record not found. Please contact support.";
                        SignOut] in
              if signOutOk d then (st1, log1 ++ [RouterPush loginPath])
              else onCatch isMounted st1 log1
        | DocExists role =>
            if negb (isMounted AfterGetDoc) then (st, log)
            else if roleIsAdmin role then
              if negb shownWelcome then
                (mkAuthState (UserIs u) true false true,
                 log ++ [ShowToast success grantedMessage])
              else
                (mkAuthState (UserIs u) true false (hasShownWelcome st), log)
            else
              let st1 := mkAuthState UserNull false (checkingAuth st) (hasShownWelcome st) in
              let log1 :=
                log ++ [ShowToast error "Access denied: Admin privileges required";
                        SignOut] in
              if signOutOk d then
                (mkAuthState UserNull false false (hasShownWelcome st),
                 log1 ++ [RouterPushAfter 2000 loginPath])
              else onCatch isMounted st1 log1
        end
    end.

Definition stillMounted (c : CheckPoint) : bool := true.

(** ** The listener calls of one mounted dashboard *)

(** The listener is asynchronous: a call waits at [await getDoc] and, in
    the two branches that sign out, at [await signOut], and other calls of
    the listener run in between. The effect lists [hasShownWelcome] among
    its dependencies: when React renders with a changed [hasShownWelcome]
    it runs the cleanup of the effect, which sets the [isMounted] of that
    run to [false] and unsubscribes, and runs the effect again, which
    subscribes a listener that captures the new value. *)

(** Where a call waits. *)
Inductive Suspended : Type := AtGetDoc | AtSignOutMissing | AtSignOutDenied.

(** A call that waits: the run of the effect that subscribed its listener,
    the [hasShownWelcome] that this run captured, what it was called with,
    and the place. *)
Record Pending : Type := mkPending {
  effectRun : nat;
  shownWelcome : bool;
  delivery : Delivery;
  identity : User.t;
  suspended : Suspended
}.

(** A mounted dashboard: the state, the run of the effect whose listener is
    subscribed with the [hasShownWelcome] that it captured, and the calls
    that wait. *)
Record Session : Type := mkSession {
  state : AuthState;
  currentRun : nat;
  captured : bool;
  pending : list Pending
}.

Definition mount : Session :=
  mkSession initialAuthState 0 (hasShownWelcome initialAuthState) [].

(** The identity provider calls the subscribed listener, which runs up to
    its first [await]. *)
Definition deliver (s : Session) (d : Delivery) : Session * list Event :=
  match currentUser d with
  | None =>
      (mkSession (mkAuthState UserNull false false (hasShownWelcome (state s)))
                 (currentRun s) (captured s) (pending s),
       [RouterPush loginPath])
  | Some u =>
      (mkSession (state s) (currentRun s) (captured s)
                 (pending s ++ [mkPending (currentRun s) (captured s) d u AtGetDoc]),
       [GetDoc "users" (User.uid u)])
  end.

(** The call [c] goes on from where it waits, up to its next [await] or to
    its end; [before] and [after] are the calls that wait around it. Its
    [isMounted] is still [true] when the run of the effect that subscribed
    it is the current one. *)
Definition resume (s : Session) (before : list Pending) (c : Pending)
           (after : list Pending) : Session * list Event :=
  let isMounted := fun _ : CheckPoint => Nat.eqb (effectRun c) (currentRun s) in
  let st := state s in
  let ends st' := mkSession st' (currentRun s) (captured s) (before ++ after) in
  let waits st' place :=
    mkSession st' (currentRun s) (captured s)
      (before ++ mkPending (effectRun c) (shownWelcome c) (delivery c) (identity c) place
              :: after) in
  match suspended c with
  | AtGetDoc =>
      match userDoc (delivery c) with
      | GetDocRejects => (ends (fst (onCatch isMounted st [])), snd (onCatch isMounted st []))
      | DocMissing =>
          if negb (isMounted AfterGetDoc) then (ends st, [])
          else
            (waits (mkAuthState UserNull false false (hasShownWelcome st)) AtSignOutMissing,
             [ConsoleError "Firestore document not found for UID:";
              ShowToast error "User record not found. Please contact support.";
              SignOut])
      | DocExists role =>
          if negb (isMounted AfterGetDoc) then (ends st, [])
          else if roleIsAdmin role then
            if negb (shownWelcome c) then
              (ends (mkAuthState (UserIs (identity c)) true false true),
               [ShowToast success grantedMessage])
            else
              (ends (mkAuthState (UserIs (identity c)) true false (hasShownWelcome st)), [])
          else
            (waits (mkAuthState UserNull false (checkingAuth st) (hasShownWelcome st))
                   AtSignOutDenied,
             [ShowToast error "Access denied: Admin privileges required"; SignOut])
      end
  | AtSignOutMissing =>
      if signOutOk (delivery c) then (ends st, [RouterPush loginPath])
      else (ends (fst (onCatch isMounted st [])), snd (onCatch isMounted st []))
  | AtSignOutDenied =>
      if signOutOk (delivery c) then
        (ends (mkAuthState (user st) (isAdmin st) false (hasShownWelcome st)),
         [RouterPushAfter 2000 loginPath])
      else (ends (fst (onCatch isMounted st [])), snd (onCatch isMounted st []))
  end.

(** React renders and runs the effects. *)
Definition commit (s : Session) : Session :=
  if Bool.eqb (hasShownWelcome (state s)) (captured s) then s
  else mkSession (state s) (S (currentRun s)) (hasShownWelcome (state s)) (pending s).

(** What happens to a mounted dashboard: the identity provider calls the
    listener; what the [k]-th waiting call awaits settles; React renders. *)
Inductive Step : Type :=
| Deliver (d : Delivery)
| Resume (k : nat)
| Commit.

Definition sessionStep (s : Session) (e : Step) : Session * list Event :=
  match e with
  | Deliver d => deliver s d
  | Resume k =>
      match nth_error (pending s) k with
      | Some c => resume s (firstn k (pending s)) c (skipn (S k) (pending s))
      | None => (s, [])
      end
  | Commit => (commit s, [])
  end.

Fixpoint run (s : Session) (steps : list Step) : Session * list Event :=
  match steps with
  | [] => (s, [])
  | e :: rest =>
      (fst (run (fst (sessionStep s e)) rest),
       snd (sessionStep s e) ++ snd (run (fst (sessionStep s e)) rest))
  end.

(** A call that nothing overlaps: the delivery, the two places where it
    can wait, and the render that follows. *)
Definition alone (d : Delivery) : list Step := [Deliver d; Resume 0; Resume 0; Commit].

Definition isGranted (e : Event) : bool :=
  match e with
  | ShowToast success message => (message =? grantedMessage)%string
  | _ => false
  end.



Definition count (f : Event -> bool) (log : list Event) : nat :=
  List.length (filter f log).

End AdminPage.

(* ===================================================================== *)
(** * Public page: ProjectPreviewModal and the card helpers *)
(* ===================================================================== *)

Module PortfolioPage.

(** [ProjectPreviewModal.mediaItems] *)
Definition mediaItems (project : Project.t) : list MediaItem.t :=
  if truthyArray (Project.media project) && isArray (Project.media project)
     && (0 <? lengthOf (Project.media project))
  then items (Project.media project)
  else if truthy (Project.mediaUrl project)
  then [MediaItem.mk (if ProjectType_eqb (Project.type project) motion then video else image)
                      (str (Project.mediaUrl project))]
  else [].

(** [AllProjectsModal.getFirstMedia] *)
Definition getFirstMedia (project : Project.t) : option MediaItem.t :=
  if truthyArray (Project.media project) && isArray (Project.media project)
     && (0 <? lengthOf (Project.media project))
  then first (Project.media project)
  else if truthy (Project.mediaUrl project)
  then Some (MediaItem.mk (if ProjectType_eqb (Project.type project) motion then video else image)
                      (str (Project.mediaUrl project)))
  else None.

(** The [firstMedia] computed inline for the cards of the projects section. *)
Definition firstMedia (project : Project.t) : option MediaItem.t :=
  if truthyArray (Project.media project) && isArray (Project.media project)
     && (0 <? lengthOf (Project.media project))
  then first (Project.media project)
  else (if truthy (Project.mediaUrl project)
        then Some (MediaItem.mk (if ProjectType_eqb (Project.type project) motion then video else image)
                      (str (Project.mediaUrl project)))
        else None).

Definition currentMedia (project : Project.t) (currentMediaIndex : jsnum) :=
  itemAt (mediaItems project) currentMediaIndex.

Definition hasMultipleMedia (project : Project.t) : bool :=
  1 <? len (mediaItems project).

Definition goToNext (project : Project.t) (prev : jsnum) : jsnum :=
  js_rem (js_add prev (JInt 1)) (JInt (len (mediaItems project))).

Definition goToPrevious (project : Project.t) (prev : jsnum) : jsnum :=
  js_rem (js_add (js_sub prev (JInt 1)) (JInt (len (mediaItems project))))
         (JInt (len (mediaItems project))).

Definition handleKeyPress (project : Project.t) (key : string) : option Call :=
  if (key =? "ArrowRight")%string && hasMultipleMedia project then Some CallGoToNext
  else if (key =? "ArrowLeft")%string && hasMultipleMedia project then Some CallGoToPrevious
  else if (key =? "Escape")%string then Some CallOnClose
  else None.

Definition arrowsRendered (project : Project.t) (currentMediaIndex : jsnum) : bool :=
  isSome (currentMedia project currentMediaIndex) && hasMultipleMedia project.

Definition thumbnailRendered (project : Project.t) (idx : nat) : bool :=
  hasMultipleMedia project && (Z.of_nat idx <? len (mediaItems project)).

Definition dispatch (project : Project.t) (currentMediaIndex : jsnum)
           (ev : UiEvent) : option Call :=
  match ev with
  | KeyDown key => handleKeyPress project key
  | ClickPrevious =>
      if arrowsRendered project currentMediaIndex then Some CallGoToPrevious else None
  | ClickNext =>
      if arrowsRendered project currentMediaIndex then Some CallGoToNext else None
  | ClickThumbnail idx =>
      if thumbnailRendered project idx then Some (CallSetIndex (Z.of_nat idx)) else None
  end.

Definition perform (project : Project.t) (c : Call) (currentMediaIndex : jsnum) : jsnum :=
  match c with
  | CallGoToNext => goToNext project currentMediaIndex
  | CallGoToPrevious => goToPrevious project currentMediaIndex
  | CallSetIndex idx => JInt idx
  | CallOnClose => currentMediaIndex
  end.

Definition step (project : Project.t) (currentMediaIndex : jsnum) (ev : UiEvent) : jsnum :=
  match dispatch project currentMediaIndex ev with
  | Some c => perform project c currentMediaIndex
  | None => currentMediaIndex
  end.

(** The modal of the page. The project objects are made by
    [fetchProjectsFromFirebase], one for each document of each fetch, and
    are never changed: an object is identified by the fetch that made it
    ([generation]) and its place in the fetched array ([position]). *)
Record Preview : Type := mkPreview {
  generation : nat;
  position : nat;
  project : Project.t;
  currentMediaIndex : jsnum
}.

(** The state of [PortfolioPage] that the modal depends on. *)
Record Page : Type := mkPage {
  fetches : nat;
  projects : list Project.t;
  showAllProjectsModal : bool;
  selectedProject : option Preview
}.

Definition initialPage : Page := mkPage 0 [] false None.

(** [Object.is(selectedProject, project)] *)
Definition sameObject (g k : nat) (st : option Preview) : bool :=
  match st with
  | Some v => (Nat.eqb (generation v) g && Nat.eqb (position v) k)%bool
  | None => false
  end.

(** [ProjectPreviewModal] is a component declared inside the body of
    [PortfolioPage]: every render of the page makes a new component, so
    the modal, when there is one, is unmounted and mounted afresh,
    [useState(0)] included. *)
Definition rerender (pg : Page) : Page :=
  mkPage (fetches pg) (projects pg) (showAllProjectsModal pg)
    match selectedProject pg with
    | Some v => Some (mkPreview (generation v) (position v) (project v) (JInt 0))
    | None => None
    end.

(** [setSelectedProject(project)] alone, from a card of the projects
    section: with the object that is already selected the state setter
    bails out and the page is not rendered again; with another one the
    page renders and the modal mounts. *)
Definition setSelectedProject (g k : nat) (p : Project.t) (pg : Page) : Page :=
  if sameObject g k (selectedProject pg) then pg
  else mkPage (fetches pg) (projects pg) (showAllProjectsModal pg)
         (Some (mkPreview g k p (JInt 0))).

(** [setShowAllProjectsModal(b)] alone. *)
Definition setShowAllProjectsModal (b : bool) (pg : Page) : Page :=
  if Bool.eqb (showAllProjectsModal pg) b then pg
  else rerender (mkPage (fetches pg) (projects pg) b (selectedProject pg)).

(** What happens on the page: a fetch completes ([setProjects]); a card of
    the projects section, which shows [projects.slice(0, 6)], is clicked;
    the list of all projects is opened or closed; a card of that list is
    clicked ([onSelectProject(project); onClose()], one render for the two
    setters); the modal is closed; any other state of the page changes
    (the theme, the contact form, the loading flag); an event inside the
    modal. *)
Inductive PageEvent : Type :=
| SetProjects (fetched : list Project.t)
| ClickCard (k : nat)
| OpenAllProjects
| CloseAllProjects
| ClickListCard (k : nat)
| CloseModal
| Rerender
| Viewer (ev : UiEvent).

Definition pageStep (pg : Page) (e : PageEvent) : Page :=
  match e with
  | SetProjects fetched =>
      rerender (mkPage (S (fetches pg)) fetched (showAllProjectsModal pg)
                       (selectedProject pg))
  | ClickCard k =>
      match nth_error (projects pg) k with
      | Some p => if Nat.ltb k 6 then setSelectedProject (fetches pg) k p pg else pg
      | None => pg
      end
  | OpenAllProjects => setShowAllProjectsModal true pg
  | CloseAllProjects => setShowAllProjectsModal false pg
  | ClickListCard k =>
      match nth_error (projects pg) k with
      | Some p =>
          if showAllProjectsModal pg then
            rerender (mkPage (fetches pg) (projects pg) false
                             (Some (mkPreview (fetches pg) k p (JInt 0))))
          else pg
      | None => pg
      end
  | CloseModal =>
      match selectedProject pg with
      | Some _ => mkPage (fetches pg) (projects pg) (showAllProjectsModal pg) None
      | None => pg
      end
  | Rerender => rerender pg
  | Viewer ev =>
      match selectedProject pg with
      | Some v =>
          match dispatch (project v) (currentMediaIndex v) ev with
          | Some CallOnClose =>
              mkPage (fetches pg) (projects pg) (showAllProjectsModal pg) None
          | _ =>
              mkPage (fetches pg) (projects pg) (showAllProjectsModal pg)
                (Some (mkPreview (generation v) (position v) (project v)
                         (step (project v) (currentMediaIndex v) ev)))
          end
      | None => pg
      end
  end.

End PortfolioPage.

(* ===================================================================== *)
(** * The upload and edit form *)
(* ===================================================================== *)

Module IFormInput.
(** The values that the form library hands to [onSubmit]. *)
Record t : Type := mk {
  title : string;
  description : option string;
  type : ProjectType;
  liveLink : option string;
  tags : option string
}.
End IFormInput.

Module UploadForm.

(** The answers of the services during one submission, the two
    environment variables of the media host, and how many times the 300 ms
    interval of an upload fires while the request for a file is in flight. *)
Record Env : Type := mkEnv {
  userDoc : GetDocResult;
  cloudName : option string;
  preset : option string;
  post : File.t -> PostResult;
  ticks : File.t -> nat;
  addDocResult : WriteResult;
  updateDocResult : WriteResult
}.

Record Props : Type := mkProps {
  user : option User.t;
  initialData : option Project.t;
  hasOnFinish : bool
}.

Definition showToast (type : ToastType) (message : string) : M unit :=
  emit (ShowToast type message).

(** [validateCloudinaryConfig] *)
Definition validateCloudinaryConfig (env : Env) : M (string * string) :=
  if (negb (truthy (cloudName env)) || negb (truthy (preset env)))%bool then
    throw "Cloudinary configuration missing. Please check your environment variables."
  else ret (str (cloudName env), str (preset env)).

(** The interval callback, once for each time the interval fires. *)
Fixpoint progressInterval (n : nat) : M unit :=
  match n with
  | O => ret tt
  | S n' => emit BumpUploadProgress ;; progressInterval n'
  end.

(** [uploadToCloudinary]. The interval set before the request fires while
    [await fetch] is pending, and is cleared as soon as the request settles,
    before anything else is done. *)
Definition uploadToCloudinary (env : Env) (file : File.t) (resourceType : MediaType)
  : M string :=
  config <- validateCloudinaryConfig env ;;
  tryCatch
    (emit (CloudinaryPost (fst config) resourceType file) ;;
     progressInterval (ticks env file) ;;
     match post env file with
     | PostRejects message => throw message
     | PostBadBody message =>
         emit (SetUploadProgress 100) ;;
         throw message
     | PostNotOk errorMessage =>
         emit (SetUploadProgress 100) ;;
         throw (if truthy errorMessage then str errorMessage
                else "Upload to Cloudinary failed")
     | PostOk secure_url =>
         emit (SetUploadProgress 100) ;;
         ret secure_url
     end)
    (fun message => emit (SetUploadProgress 0) ;; throw message).

Definition maxSize (selectedType : ProjectType) : Z :=
  if ProjectType_eqb selectedType motion then 50 * 1024 * 1024 else 5 * 1024 * 1024.

Definition resourceType (selectedType : ProjectType) : MediaType :=
  if ProjectType_eqb selectedType motion then video else image.

Definition sizeLimitMessage (file : File.t) : string :=
  "File " ++ dquote ++ File.name file ++ dquote ++ " exceeds the size limit".

(** The [for (const file of selectedFiles)] loop; [uploadedMedia] is
    the array that it pushes to. *)
Fixpoint uploadLoop (env : Env) (selectedType : ProjectType) (files : list File.t)
         (uploadedMedia : list MediaItem.t) : M (list MediaItem.t) :=
  match files with
  | [] => ret uploadedMedia
  | file :: rest =>
      if File.size file >? maxSize selectedType then throw (sizeLimitMessage file)
      else
        url <- uploadToCloudinary env file (resourceType selectedType) ;;
        uploadLoop env selectedType rest
          (uploadedMedia ++ [MediaItem.mk (resourceType selectedType) url])
  end.

(** [data.tags ? data.tags.split(',').map(tag => tag.trim()).filter(Boolean) : []] *)
Definition tagsArray (data : IFormInput.t) : list string :=
  if truthy (IFormInput.tags data) then
    filter (fun tag => truthy (Some tag))
           (map trim (splitComma (str (IFormInput.tags data))))
  else [].

(** [data.description?.trim() || ''] *)
Definition descriptionOf (data : IFormInput.t) : string :=
  match IFormInput.description data with
  | Some d => if truthy (Some (trim d)) then trim d else EmptyString
  | None => EmptyString
  end.

(** [data.type === 'frontend' ? data.liveLink?.trim() : undefined] *)
Definition liveLinkOf (data : IFormInput.t) : option string :=
  if ProjectType_eqb (IFormInput.type data) frontend then
    match IFormInput.liveLink data with
    | Some l => Some (trim l)
    | None => None
    end
  else None.

(** [user.email || 'unknown'] *)
Definition emailOf (u : User.t) : string :=
  if truthy (User.email u) then str (User.email u) else "unknown".

(** The [projectData] object literal. *)
Definition projectData (u : User.t) (initialData : option Project.t)
           (data : IFormInput.t) (media : list MediaItem.t) : ProjectData.t :=
  match initialData with
  | Some _ =>
      ProjectData.mk (trim (IFormInput.title data)) (descriptionOf data)
        (IFormInput.type data) media (liveLinkOf data) (tagsArray data)
        ServerTimestamp None None None None None None None
  | None =>
      ProjectData.mk (trim (IFormInput.title data)) (descriptionOf data)
        (IFormInput.type data) media (liveLinkOf data) (tagsArray data)
        ServerTimestamp (Some ServerTimestamp) (Some (User.uid u))
        (Some (emailOf u)) (Some "published") (Some false) (Some 0) (Some 0)
  end.

Definition write (e : Event) (r : WriteResult) : M unit :=
  emit e ;;
  match r with
  | WriteOk => ret tt
  | WriteRejects message => throw message
  end.

(** [initialData?.media || []] *)
Definition currentMediaOf (initialData : option Project.t) : list MediaItem.t :=
  match initialData with
  | Some p => items (Project.media p)
  | None => []
  end.

(** The items of the strip that shows the current media in edit mode:
    [initialData.media?.map(...)]. *)
Definition currentMediaShown (initialData : Project.t) : list MediaItem.t :=
  items (Project.media initialData).

(** The first [try] of [onSubmit]: [true] when the submission goes on. *)
Definition verifyAdmin (env : Env) (u : User.t) : M bool :=
  emit (GetDoc "users" (User.uid u)) ;;
  match userDoc env with
  | GetDocRejects =>
      emit (ConsoleError "Admin verification error:") ;;
      showToast error "Failed to verify admin status." ;;
      ret false
  | DocMissing =>
      showToast error "User record not found. Please contact support." ;;
      ret false
  | DocExists role =>
      if roleIsAdmin role then ret true
      else showToast error "Admin privileges required for upload." ;; ret false
  end.

(** The body of the second [try] of [onSubmit]. *)
Definition submitBody (env : Env) (props : Props) (u : User.t)
           (selectedFiles : list File.t) (selectedType : ProjectType)
           (data : IFormInput.t) : M unit :=
  media <-
    (if 0 <? len selectedFiles then
       showToast warning "Uploading media..." ;;
       uploadLoop env selectedType selectedFiles []
     else if negb (isSome (initialData props)) then
       throw "Please select at least one file"
     else ret (currentMediaOf (initialData props))) ;;
  showToast warning (if isSome (initialData props) then "Updating project..."
                     else "Saving to database...") ;;
  match initialData props with
  | Some p =>
      write (UpdateDoc "projects" (Project.id p)
               (projectData u (initialData props) data media))
            (updateDocResult env) ;;
      showToast success "✓ Project updated successfully!" ;;
      (if hasOnFinish props then emit OnFinish else ret tt)
  | None =>
      write (AddDoc "projects" (projectData u (initialData props) data media))
            (addDocResult env) ;;
      showToast success "✓ Project uploaded successfully!" ;;
      emit FormReset ;;
      emit (SetSelectedFiles [])
  end ;;
  emit (SetUploadProgress 0).

(** [error.message || (initialData ? 'Update failed' : 'Upload failed')] *)
Definition failureMessage (props : Props) (message : string) : string :=
  if truthy (Some message) then message
  else if isSome (initialData props) then "Update failed" else "Upload failed".

(** [onSubmit]. [selectedFiles] and [selectedType] are the values of the
    render in which the handler was made, [data] the submitted values. *)
Definition onSubmit (env : Env) (props : Props) (selectedFiles : list File.t)
           (selectedType : ProjectType) (data : IFormInput.t) : M unit :=
  match user props with
  | None => showToast error "Authentication required. Please sign in again."
  | Some u =>
      verified <- verifyAdmin env u ;;
      if negb verified then ret tt
      else
        emit (SetIsLoading true) ;;
        emit (SetUploadProgress 0) ;;
        finally
          (tryCatch
             (submitBody env props u selectedFiles selectedType data)
             (fun message =>
                emit (ConsoleError "Upload Error:") ;;
                showToast error (failureMessage props message) ;;
                emit (SetUploadProgress 0)))
          (emit (SetIsLoading false))
  end.

Definition isMutation (e : Event) : bool :=
  match e with
  | CloudinaryPost _ _ _ | AddDoc _ _ | UpdateDoc _ _ _ => true
  | _ => false
  end.

Definition isToast (e : Event) : bool :=
  match e with ShowToast _ _ => true | _ => false end.

End UploadForm.

(* ===================================================================== *)
(** * The document store behind the form *)
(* ===================================================================== *)

Module Store.




End Store.

(* ===================================================================== *)
(** * Login page *)
(* ===================================================================== *)

Module LoginPage.

(** What [signInWithEmailAndPassword] comes back with: the credential, or
    a rejection with its [code] ([None] when the error has none). *)
Inductive SignInResult : Type :=
| SignedIn
| SignInFails (code : option string).

Record State : Type := mkState {
  email : string;
  password : string;
  error : string;
  isLoading : bool;
  checkingAuth : bool
}.

Inductive Effect : Type :=
| SignInWithEmailAndPassword (email password : string)
| Push (path : string)
| LogError.

(** [authError.code === c] *)
Definition codeIs (code : option string) (c : string) : bool :=
  match code with
  | Some v => (v =? c)%string
  | None => false
  end.

(** The message that the [catch] block of [handleLogin] sets. *)
Definition errorFor (code : option string) : string :=
  if (codeIs code "auth/invalid-credential"
      || codeIs code "auth/user-not-found"
      || codeIs code "auth/wrong-password")%bool
  then "Invalid email or password."
  else if codeIs code "auth/too-many-requests"
  then "Too many failed attempts. Please try again later."
  else "Failed to log in. Please check your connection.".

(** [handleLogin] *)
Definition handleLogin (r : SignInResult) (st : State) : State * list Effect :=
  match r with
  | SignedIn =>
      (mkState (email st) (password st) EmptyString true (checkingAuth st),
       [SignInWithEmailAndPassword (email st) (password st); Push "/admin"])
  | SignInFails code =>
      (mkState (email st) (password st) (errorFor code) false (checkingAuth st),
       [SignInWithEmailAndPassword (email st) (password st); LogError])
  end.

(** The listener of the effect that looks for a session that is already
    open; [signedIn] tells whether it is called with a user. *)
Definition onAuthState (signedIn : bool) (st : State) : State * list Effect :=
  if signedIn then (st, [Push "/admin"])
  else (mkState (email st) (password st) (error st) (isLoading st) false, []).

Definition isSignIn (e : Effect) : bool :=
  match e with SignInWithEmailAndPassword _ _ => true | _ => false end.

Definition isPush (e : Effect) : bool :=
  match e with Push _ => true | _ => false end.

End LoginPage.

(* ===================================================================== *)
(** * Toast notifications of the dashboard *)
(* ===================================================================== *)

Module ToastMessage.
Record t : Type := mk { id : Z; type : ToastType; message : string }.
End ToastMessage.

Module UseToast.

(** The update that [showToast] applies to the list of toasts; [now] is
    the [Date.now()] of the call. *)
Definition showToast (now : Z) (type : ToastType) (message : string)
           (prev : list ToastMessage.t) : list ToastMessage.t :=
  prev ++ [ToastMessage.mk now type message].

(** The update that the timer of the toast [id] applies, 4000 ms later:
    [prev.filter((t) => t.id !== id)]. *)
Definition dismiss (id : Z) (prev : list ToastMessage.t) : list ToastMessage.t :=
  filter (fun t => negb (ToastMessage.id t =? id)) prev.

End UseToast.

(* ===================================================================== *)
(** * Admin dashboard: cards, screens, project list and deletion *)
(* ===================================================================== *)

Module Dashboard.

(** [ProjectCard.hasMultipleMedia]:
    [project.media && Array.isArray(project.media) && project.media.length > 1] *)
Definition hasMultipleMedia (project : Project.t) : bool :=
  truthyArray (Project.media project) && isArray (Project.media project)
  && (1 <? lengthOf (Project.media project)).

(** The number in the badge of the card: [project.media.length]. *)
Definition badgeCount (project : Project.t) : Z := lengthOf (Project.media project).

(** The tags on the card: [project.tags.slice(0, 3)]. *)
Definition shownTags (project : Project.t) : list string :=
  firstn 3 (Project.tags project).

(** The [+n] after them, rendered when [project.tags.length > 3]. *)
Definition moreTags (project : Project.t) : option Z :=
  if 3 <? len (Project.tags project) then Some (len (Project.tags project) - 3) else None.

(** The three returns of [AdminPage]. *)
Inductive Screen : Type := Verifying | AccessDenied | Panel.

Definition userPresent (u : AdminPage.UserState) : bool :=
  match u with AdminPage.UserIs _ => true | _ => false end.

Definition userUndefined (u : AdminPage.UserState) : bool :=
  match u with AdminPage.UserUndefined => true | _ => false end.

Definition screen (st : AdminPage.AuthState) : Screen :=
  if (AdminPage.checkingAuth st || userUndefined (AdminPage.user st))%bool then Verifying
  else if (negb (userPresent (AdminPage.user st)) || negb (AdminPage.isAdmin st))%bool
  then AccessDenied
  else Panel.

(** The guard of the effect that loads the projects:
    [if (!isAdmin || !user) return;] *)
Definition subscribes (st : AdminPage.AuthState) : bool :=
  negb (negb (AdminPage.isAdmin st) || negb (userPresent (AdminPage.user st)))%bool.

Record Mirror : Type := mkMirror {
  projects : list Project.t;
  loadingProjects : bool
}.

Definition initialMirror : Mirror := mkMirror [] true.

(** What the subscription delivers: a snapshot (its documents, already
    mapped to projects) or an error. *)
Inductive SnapshotEvent : Type :=
| Snapshot (docs : list Project.t)
| SnapshotError.

(** The two callbacks of [onSnapshot]. *)
Definition onSnapshot (m : Mirror) (ev : SnapshotEvent) : Mirror * list Event :=
  match ev with
  | Snapshot docs => (mkMirror docs false, [])
  | SnapshotError =>
      (mkMirror (projects m) false,
       [ConsoleError "Error fetching projects:"; ShowToast error "Failed to load projects"])
  end.

Fixpoint subscription (m : Mirror) (evs : list SnapshotEvent) : Mirror * list Event :=
  match evs with
  | [] => (m, [])
  | ev :: rest =>
      (fst (subscription (fst (onSnapshot m ev)) rest),
       snd (onSnapshot m ev) ++ snd (subscription (fst (onSnapshot m ev)) rest))
  end.

Inductive Effect : Type :=
| Confirm (message : string)
| DeleteDoc (collection id : string)
| Did (e : Event).

Definition confirmMessage (projectTitle : string) : string :=
  "Are you sure you want to delete " ++ dquote ++ projectTitle ++ dquote
  ++ "? This action cannot be undone.".

(** [handleDeleteProject]; [confirmed] is the answer to the dialog,
    [deleted] tells whether [deleteDoc] resolves. *)
Definition handleDeleteProject (confirmed deleted : bool) (projectId projectTitle : string)
           (previewProject : option Project.t) : option Project.t * list Effect :=
  if negb confirmed then (previewProject, [Confirm (confirmMessage projectTitle)])
  else if deleted then
    (None,
     [Confirm (confirmMessage projectTitle);
      DeleteDoc "projects" projectId;
      Did (ShowToast success "Project deleted successfully")])
  else
    (previewProject,
     [Confirm (confirmMessage projectTitle);
      DeleteDoc "projects" projectId;
      Did (ConsoleError "Error deleting project:");
      Did (ShowToast error "Failed to delete project")]).

Definition isDelete (e : Effect) : bool :=
  match e with DeleteDoc _ _ => true | _ => false end.

End Dashboard.

(* ===================================================================== *)
(** * Public page: project list, tabs and contact form *)
(* ===================================================================== *)

Module Portfolio.

Record Mirror : Type := mkMirror {
  projects : list Project.t;
  loadingProjects : bool
}.

(** What [getDocs] comes back with. *)
Inductive FetchResult : Type :=
| Fetched (docs : list Project.t)
| FetchFails.

(** [fetchProjectsFromFirebase], from start to [finally]. *)
Definition fetchProjectsFromFirebase (r : FetchResult) (m : Mirror) : Mirror :=
  match r with
  | Fetched docs => mkMirror docs false
  | FetchFails => mkMirror [] false
  end.

(** The cards of the projects section: [projects.slice(0, 6)]. *)
Definition homeCards (projects : list Project.t) : list Project.t := firstn 6 projects.

(** [AllProjectsModal.filteredProjects] *)
Definition filteredProjects (projects : list Project.t) (activeTab : ProjectType)
  : list Project.t :=
  filter (fun project => ProjectType_eqb (Project.type project) activeTab) projects.

(** The [count] in the badge of a tab. *)
Definition tabCount (projects : list Project.t) (tab : ProjectType) : Z :=
  len (filter (fun p => ProjectType_eqb (Project.type p) tab) projects).

Inductive SubmitStatus : Type := idle | sending | success | error.

Record Form : Type := mkForm { name : string; email : string; message : string }.

Record Contact : Type := mkContact { form : Form; submitStatus : SubmitStatus }.

Inductive Effect : Type :=
| SendToOwner (from_name from_email message : string)
| SendAutoReply (to_name to_email : string)
| LogError
| IdleAfter (ms : Z).

Definition isSending (s : SubmitStatus) : bool :=
  match s with sending => true | _ => false end.

(** [submitContact] up to its first [await]: [None] when the guard
    returns, else the state with the status [sending]. *)
Definition submitStart (st : Contact) : option Contact :=
  if isSending (submitStatus st) then None
  else Some (mkContact (form st) sending).

(** The rest of [submitContact]; [ownerOk] and [replyOk] tell whether the
    two sends resolve. *)
Definition submitSettle (ownerOk replyOk : bool) (st : Contact) : Contact * list Effect :=
  let toOwner := SendToOwner (name (form st)) (email (form st)) (message (form st)) in
  let reply := SendAutoReply (name (form st)) (email (form st)) in
  if negb ownerOk then
    (mkContact (form st) error, [toOwner; LogError; IdleAfter 3000])
  else if negb replyOk then
    (mkContact (form st) error, [toOwner; reply; LogError; IdleAfter 3000])
  else
    (mkContact (mkForm EmptyString EmptyString EmptyString) success, [toOwner; reply]).

(** [submitContact] *)
Definition submitContact (ownerOk replyOk : bool) (st : Contact) : Contact * list Effect :=
  match submitStart st with
  | None => (st, [])
  | Some started => submitSettle ownerOk replyOk started
  end.

Definition isMail (e : Effect) : bool :=
  match e with SendToOwner _ _ _ | SendAutoReply _ _ => true | _ => false end.

Definition isAutoReply (e : Effect) : bool :=
  match e with SendAutoReply _ _ => true | _ => false end.

End Portfolio.

(* ===================================================================== *)
(** * Vocabulary of the properties *)
(* ===================================================================== *)


(** What the viewer keeps: an integer of [[0, length)] over a sequence that
    is not empty, and 0 over the empty one. *)
Definition indexValid (p : Project.t) (idx : jsnum) : Prop :=
  exists i, idx = JInt i /\
    ((len (AdminPage.mediaItems p) = 0 /\ i = 0) \/ 0 <= i < len (AdminPage.mediaItems p)).




Import AdminPage.

(** A delivery that grants access: an identity whose role record exists
    with the role [admin]. *)
Definition grants (d : Delivery) : bool :=
  (isSome (currentUser d) &&
   match userDoc d with
   | DocExists role => roleIsAdmin role
   | _ => false
   end)%bool.

(** The role check of a submission passes: there is a user, the role
    record is fetched, exists, and holds the role [admin]. *)
Definition verified (env : UploadForm.Env) (props : UploadForm.Props) : bool :=
  (isSome (UploadForm.user props) &&
   match UploadForm.userDoc env with
   | DocExists role => roleIsAdmin role
   | _ => false
   end)%bool.

(** A file that passes the size check and that the media host accepts. *)
Definition uploads (env : UploadForm.Env) (selectedType : ProjectType) (file : File.t) : Prop :=
  File.size file <= UploadForm.maxSize selectedType /\
  exists url, UploadForm.post env file = PostOk url.

(** The events of one accepted upload: the request, the progress that the
    interval adds while it is in flight, and the progress set to 100. *)
Definition uploadEvents (env : UploadForm.Env) (selectedType : ProjectType) (file : File.t)
  : list Event :=
  CloudinaryPost (str (UploadForm.cloudName env)) (UploadForm.resourceType selectedType) file
  :: repeat BumpUploadProgress (UploadForm.ticks env file)
  ++ [SetUploadProgress 100].

(** The media item that an accepted upload adds. *)
Definition uploadedItem (env : UploadForm.Env) (selectedType : ProjectType) (file : File.t)
  : MediaItem.t :=
  MediaItem.mk (UploadForm.resourceType selectedType)
    match UploadForm.post env file with
    | PostOk url => url
    | _ => EmptyString
    end.

(** What the upload loop may log: requests for files within the cap, and
    progress. *)
Definition uploadEvent (selectedType : ProjectType) (e : Event) : Prop :=
  match e with
  | CloudinaryPost _ _ file => File.size file <= UploadForm.maxSize selectedType
  | SetUploadProgress _ => True
  | BumpUploadProgress => True
  | _ => False
  end.

(* ===================================================================== *)
(** * Sample data *)
(* ===================================================================== *)

Definition sampleItems : list MediaItem.t :=
  [MediaItem.mk image "https://cdn.example/a.png";
   MediaItem.mk image "https://cdn.example/b.png";
   MediaItem.mk video "https://cdn.example/c.mp4"].

(** A project in the current format, with three media items. *)
Definition galleryProject : Project.t :=
  Project.mk "p1" "Brand campaign" "Posters" graphics (Some sampleItems) None None
             ["branding"] 0 0.

(** A legacy motion project: no [media] array, one [mediaUrl]. *)
Definition legacyProject : Project.t :=
  Project.mk "p0" "Logo sting" "Intro" motion None (Some "https://cdn.example/old.mp4")
             None [] 0 0.

(** A project with no media in either format. *)
Definition bareProject : Project.t :=
  Project.mk "p2" "Draft" EmptyString frontend (Some []) None None [] 0 0.

Definition adminUser : User.t := User.mk "uid-1" (Some "admin@portfolio.com").

(** The admin's identity with the role record that grants access. *)
Definition adminDelivery : Delivery :=
  mkDelivery (Some adminUser) (DocExists (Some "admin")) true.


(** The services when all goes well: the role record says [admin], the
    media host is configured and accepts every file. *)
Definition sampleEnv : UploadForm.Env :=
  UploadForm.mkEnv (DocExists (Some "admin")) (Some "demo") (Some "unsigned")
    (fun file => PostOk ("https://res.example/" ++ File.name file))
    (fun _ => 2%nat) WriteOk WriteOk.

(** The same services for a user whose role is [editor]. *)
Definition editorEnv : UploadForm.Env :=
  UploadForm.mkEnv (DocExists (Some "editor")) (Some "demo") (Some "unsigned")
    (fun file => PostOk ("https://res.example/" ++ File.name file))
    (fun _ => 2%nat) WriteOk WriteOk.

(** The form that creates a project. *)
Definition createProps : UploadForm.Props :=
  UploadForm.mkProps (Some adminUser) None false.

(** U+00A0, the no-break space, in UTF-8. *)
Definition nbsp : string :=
  String (ascii_of_nat 194) (String (ascii_of_nat 160) EmptyString).

(** A tags field typed with no-break spaces: [ux<nbsp>, <nbsp> ,motion]. *)
Definition nbspTags : string :=
  ("ux" ++ nbsp ++ ", " ++ nbsp ++ " ,motion")%string.

Definition smallFile : File.t := File.mk "a.png" 1000.

(** One byte over the cap of 5 MiB. *)
Definition bigFile : File.t := File.mk "big.png" 5242881.

Definition lateFile : File.t := File.mk "c.png" 10.

Definition posterInput : IFormInput.t :=
  IFormInput.mk " Posters " (Some "Print work") graphics (Some EmptyString)
                (Some "print, brand").

(** A stored frontend project with a live link. *)
Definition storedSite : Project.t :=
  Project.mk "p3" "Shop" "Storefront" frontend
             (Some [MediaItem.mk image "https://cdn.example/shop.png"]) None
             (Some "https://shop.example") ["react"] 0 0.

(** The form that edits [storedSite]. *)
Definition editProps : UploadForm.Props :=
  UploadForm.mkProps (Some adminUser) (Some storedSite) true.

(** The edit form submitted with the type changed to [graphics]; the
    [liveLink] value still holds the stored link. *)
Definition retypedInput : IFormInput.t :=
  IFormInput.mk "Shop" (Some "Storefront") graphics (Some "https://shop.example")
                (Some "react").


(* ===================================================================== *)
(** * Vocabulary and sample data of the further properties *)
(* ===================================================================== *)



Definition isWrite (e : Event) : bool :=
  match e with AddDoc _ _ | UpdateDoc _ _ _ => true | _ => false end.

(** From the first create or update on, the log holds no request to the
    media host and no other create or update. *)
Fixpoint quietAfterWrite (log : list Event) : bool :=
  match log with
  | [] => true
  | e :: rest =>
      if isWrite e then forallb (fun e' => negb (UploadForm.isMutation e')) rest
      else quietAfterWrite rest
  end.

(** The documents of the last snapshot among [evs], [current] when there
    is none. *)
Fixpoint lastSnapshot (evs : list Dashboard.SnapshotEvent) (current : list Project.t)
  : list Project.t :=
  match evs with
  | [] => current
  | Dashboard.Snapshot docs :: rest => lastSnapshot rest docs
  | Dashboard.SnapshotError :: rest => lastSnapshot rest current
  end.

Definition isSnapshotError (ev : Dashboard.SnapshotEvent) : bool :=
  match ev with Dashboard.SnapshotError => true | _ => false end.

(** The services with a media host that answers every request with a
    status that is not ok. *)
Definition refusingHostEnv : UploadForm.Env :=
  UploadForm.mkEnv (DocExists (Some "admin")) (Some "demo") (Some "unsigned")
    (fun _ => PostNotOk (Some "Invalid image file")) (fun _ => 1%nat) WriteOk WriteOk.

(** The services without the configuration of the media host. *)
Definition unconfiguredEnv : UploadForm.Env :=
  UploadForm.mkEnv (DocExists (Some "admin")) None (Some "unsigned")
    (fun file => PostOk ("https://res.example/" ++ File.name file))
    (fun _ => 2%nat) WriteOk WriteOk.

(** A user whose role record says [editor]. *)
Definition editorDelivery : Delivery :=
  mkDelivery (Some adminUser) (DocExists (Some "editor")) true.




(* ===================================================================== *)
(** * Properties of the media normalization *)
(* ===================================================================== *)

(** C1. The normalized media sequence of a project is its [media] array
    itself when that array is not empty; otherwise, when the legacy
    [mediaUrl] is set (a string that is not empty), the one item whose [url]
    is [mediaUrl] and whose [type] is [video] exactly when the project's type
    is [motion], and [image] otherwise; otherwise it is empty. *)
Theorem mediaItems_normalized (p : Project.t) :
  (forall arr, Project.media p = Some arr -> arr <> [] ->
     AdminPage.mediaItems p = arr) /\
  (forall u, (Project.media p = None \/ Project.media p = Some []) ->
     Project.mediaUrl p = Some u -> u <> EmptyString ->
     exists item,
       AdminPage.mediaItems p = [item] /\
       MediaItem.url item = u /\
       (MediaItem.type item = video <-> Project.type p = motion) /\
       (MediaItem.type item = image <-> Project.type p <> motion)) /\
  ((Project.media p = None \/ Project.media p = Some []) ->
   (Project.mediaUrl p = None \/ Project.mediaUrl p = Some EmptyString) ->
     AdminPage.mediaItems p = []).
Proof.
  unfold AdminPage.mediaItems. repeat split.
  - intros arr Hm Hne. rewrite Hm. destruct arr as [|m ms]; [congruence | reflexivity].
  - intros u Hm Hu Hne. rewrite Hu.
    assert (Hset : truthy (Some u) = true)
      by (simpl; destruct (String.eqb_spec u EmptyString); [contradiction | reflexivity]).
    destruct Hm as [-> | ->]; cbn [truthyArray isArray lengthOf len andb List.length Z.of_nat Z.ltb
                                   Z.compare]; rewrite Hset;
      eexists; (split; [reflexivity|]); simpl;
      destruct (Project.type p); simpl; repeat split; intros; congruence.
  - intros [-> | ->] [-> | ->]; reflexivity.
Qed.

Lemma mediaItems_normalized_witness :
  AdminPage.mediaItems galleryProject = sampleItems /\
  (exists item,
     AdminPage.mediaItems legacyProject = [item] /\
     MediaItem.url item = "https://cdn.example/old.mp4" /\
     (MediaItem.type item = video <-> Project.type legacyProject = motion) /\
     (MediaItem.type item = image <-> Project.type legacyProject <> motion)) /\
  AdminPage.mediaItems bareProject = [].
Proof.
  split; [|split].
  - apply (proj1 (mediaItems_normalized galleryProject) sampleItems);
      [reflexivity | discriminate].
  - apply (proj1 (proj2 (mediaItems_normalized legacyProject)));
      [left; reflexivity | reflexivity | discriminate].
  - apply (proj2 (proj2 (mediaItems_normalized bareProject)));
      [right; reflexivity | left; reflexivity].
Defined.

Lemma first_head {A : Type} (a : option (list A)) : first a = hd_error (items a).
Proof. unfold first. destruct (items a); reflexivity. Qed.

(** C2. The two preview modals compute the same normalized sequence, and
    the first-media helper of the admin card returns the first item of that
    sequence, [None] when it is empty; so do the two first-media helpers of
    the public page. *)
Theorem normalization_agrees (p : Project.t) :
  AdminPage.mediaItems p = PortfolioPage.mediaItems p /\
  AdminPage.firstMedia p = hd_error (AdminPage.mediaItems p) /\
  PortfolioPage.getFirstMedia p = hd_error (PortfolioPage.mediaItems p) /\
  PortfolioPage.firstMedia p = hd_error (PortfolioPage.mediaItems p).
Proof.
  unfold AdminPage.mediaItems, PortfolioPage.mediaItems, AdminPage.firstMedia,
    PortfolioPage.getFirstMedia, PortfolioPage.firstMedia.
  rewrite first_head.
  destruct (Project.media p) as [[|m ms]|]; cbn;
    destruct (truthy (Project.mediaUrl p)); auto.
Qed.

(** The edit form is not one of these places: its strip of current media
    shows the stored [media] array and knows no legacy [mediaUrl]. *)
Remark edit_form_shows_stored_media :
  UploadForm.currentMediaShown legacyProject = [] /\
  AdminPage.mediaItems legacyProject
    = [MediaItem.mk video "https://cdn.example/old.mp4"].
Proof. split; reflexivity. Qed.

(* ===================================================================== *)
(** * Properties of the gallery viewer *)
(* ===================================================================== *)

Section Cycle.

Variable L : Z.
Hypothesis L_pos : 1 <= L.

(** [goToNext] and [goToPrevious] over a sequence of length [L]. *)
Let next (prev : jsnum) : jsnum := js_rem (js_add prev (JInt 1)) (JInt L).
Let previous (prev : jsnum) : jsnum :=
  js_rem (js_add (js_sub prev (JInt 1)) (JInt L)) (JInt L).

Lemma next_int (i : Z) : 0 <= i -> next (JInt i) = JInt ((i + 1) mod L).
Proof.
  intros Hi. unfold next. simpl.
  destruct (Z.eqb_spec L 0); [lia|].
  rewrite Z.rem_mod_nonneg by lia. reflexivity.
Qed.

Lemma previous_int (i : Z) : 0 <= i -> previous (JInt i) = JInt ((i - 1) mod L).
Proof.
  intros Hi. unfold previous. simpl.
  destruct (Z.eqb_spec L 0); [lia|].
  rewrite Z.rem_mod_nonneg by lia.
  replace (i - 1 + L) with (i - 1 + 1 * L) by lia.
  rewrite Z_mod_plus_full. reflexivity.
Qed.

Lemma iter_next (k : nat) (i : Z) :
  0 <= i < L -> Nat.iter k next (JInt i) = JInt ((i + Z.of_nat k) mod L).
Proof.
  intros Hi. induction k as [|k IH].
  - simpl. rewrite Z.add_0_r, Z.mod_small by lia. reflexivity.
  - rewrite Nat.iter_succ, IH, next_int by (apply Z.mod_pos_bound; lia).
    rewrite Zplus_mod_idemp_l. f_equal. f_equal. lia.
Qed.

Lemma iter_previous (k : nat) (i : Z) :
  0 <= i < L -> Nat.iter k previous (JInt i) = JInt ((i - Z.of_nat k) mod L).
Proof.
  intros Hi. induction k as [|k IH].
  - simpl. rewrite Z.sub_0_r, Z.mod_small by lia. reflexivity.
  - rewrite Nat.iter_succ, IH, previous_int by (apply Z.mod_pos_bound; lia).
    rewrite Zminus_mod_idemp_l. f_equal. f_equal. lia.
Qed.

Lemma next_closes (i : Z) :
  0 <= i < L -> Nat.iter (Z.to_nat L) next (JInt i) = JInt i.
Proof.
  intros Hi. rewrite iter_next by assumption. rewrite Z2Nat.id by lia.
  replace (i + L) with (i + 1 * L) by lia.
  rewrite Z_mod_plus_full, Z.mod_small by lia. reflexivity.
Qed.

Lemma previous_closes (i : Z) :
  0 <= i < L -> Nat.iter (Z.to_nat L) previous (JInt i) = JInt i.
Proof.
  intros Hi. rewrite iter_previous by assumption. rewrite Z2Nat.id by lia.
  replace (i - L) with (i + (-1) * L) by lia.
  rewrite Z_mod_plus_full, Z.mod_small by lia. reflexivity.
Qed.

Lemma next_in_range (i : Z) :
  0 <= i < L -> exists j, next (JInt i) = JInt j /\ 0 <= j < L.
Proof.
  intros Hi. exists ((i + 1) mod L). split; [apply next_int; lia|].
  apply Z.mod_pos_bound; lia.
Qed.

Lemma previous_in_range (i : Z) :
  0 <= i < L -> exists j, previous (JInt i) = JInt j /\ 0 <= j < L.
Proof.
  intros Hi. exists ((i - 1) mod L). split; [apply previous_int; lia|].
  apply Z.mod_pos_bound; lia.
Qed.

End Cycle.

(** The two viewers are the same program. *)
Lemma viewers_agree :
  AdminPage.step = PortfolioPage.step /\
  AdminPage.goToNext = PortfolioPage.goToNext /\
  AdminPage.goToPrevious = PortfolioPage.goToPrevious /\
  AdminPage.handleKeyPress = PortfolioPage.handleKeyPress /\
  AdminPage.dispatch = PortfolioPage.dispatch /\
  AdminPage.arrowsRendered = PortfolioPage.arrowsRendered.
Proof. repeat split. Qed.

Lemma hasMultipleMedia_spec (p : Project.t) :
  AdminPage.hasMultipleMedia p = true <-> 1 < len (AdminPage.mediaItems p).
Proof. unfold AdminPage.hasMultipleMedia. apply Z.ltb_lt. Qed.

(** With two items or more, the bound arrow keys are [goToNext] and
    [goToPrevious]. *)
Lemma arrow_keys_multiple (p : Project.t) (idx : jsnum) :
  AdminPage.hasMultipleMedia p = true ->
  AdminPage.step p idx (KeyDown "ArrowRight") = AdminPage.goToNext p idx /\
  AdminPage.step p idx (KeyDown "ArrowLeft") = AdminPage.goToPrevious p idx.
Proof.
  intros H. unfold AdminPage.step, AdminPage.dispatch, AdminPage.handleKeyPress.
  rewrite H. split; reflexivity.
Qed.

(** With one item or none, no event reaches [goToNext] or
    [goToPrevious]. *)
Lemma dispatch_single (p : Project.t) (idx : jsnum) (ev : UiEvent) :
  AdminPage.hasMultipleMedia p = false ->
  AdminPage.dispatch p idx ev = None \/ AdminPage.dispatch p idx ev = Some CallOnClose.
Proof.
  intros H.
  destruct ev as [key| | |n]; simpl;
    unfold AdminPage.handleKeyPress, AdminPage.arrowsRendered, AdminPage.thumbnailRendered;
    rewrite H; rewrite ?andb_false_r; simpl; auto.
  destruct (key =? "Escape")%string; auto.
Qed.

Lemma iter_id {A : Type} (n : nat) (x : A) : Nat.iter n (fun y => y) x = x.
Proof. induction n as [|n IH]; [reflexivity|]. rewrite Nat.iter_succ. exact IH. Qed.

Lemma iter_ext {A : Type} (f g : A -> A) (n : nat) (x : A) :
  (forall y, f y = g y) -> Nat.iter n f x = Nat.iter n g x.
Proof.
  intros H. induction n as [|n IH]; [reflexivity|].
  rewrite !Nat.iter_succ, IH. apply H.
Qed.

(** C3. Over a normalized sequence of length [L >= 1] and from any index in
    [[0, L)], [L] applications of [goToNext] lead back to the index, and so
    do [L] applications of [goToPrevious]; in both viewers, and also when
    the operation is reached through its arrow key. *)
Theorem navigation_cycle_closes (p : Project.t) (i : Z) :
  let L := len (AdminPage.mediaItems p) in
  1 <= L -> 0 <= i < L ->
  Nat.iter (Z.to_nat L) (AdminPage.goToNext p) (JInt i) = JInt i /\
  Nat.iter (Z.to_nat L) (AdminPage.goToPrevious p) (JInt i) = JInt i /\
  Nat.iter (Z.to_nat L) (PortfolioPage.goToNext p) (JInt i) = JInt i /\
  Nat.iter (Z.to_nat L) (PortfolioPage.goToPrevious p) (JInt i) = JInt i /\
  Nat.iter (Z.to_nat L) (fun idx => AdminPage.step p idx (KeyDown "ArrowRight")) (JInt i)
    = JInt i /\
  Nat.iter (Z.to_nat L) (fun idx => AdminPage.step p idx (KeyDown "ArrowLeft")) (JInt i)
    = JInt i.
Proof.
  intros L HL Hi.
  assert (Hn : Nat.iter (Z.to_nat L) (AdminPage.goToNext p) (JInt i) = JInt i)
    by (apply (next_closes L HL i Hi)).
  assert (Hp : Nat.iter (Z.to_nat L) (AdminPage.goToPrevious p) (JInt i) = JInt i)
    by (apply (previous_closes L HL i Hi)).
  repeat split; try assumption.
  - destruct (AdminPage.hasMultipleMedia p) eqn:Hm.
    + rewrite <- Hn at 2. apply iter_ext. intros y. apply (arrow_keys_multiple p y Hm).
    + rewrite (iter_ext _ (fun y => y)); [apply iter_id|].
      intros y. unfold AdminPage.step, AdminPage.dispatch, AdminPage.handleKeyPress.
      rewrite Hm. reflexivity.
  - destruct (AdminPage.hasMultipleMedia p) eqn:Hm.
    + rewrite <- Hp at 2. apply iter_ext. intros y. apply (arrow_keys_multiple p y Hm).
    + rewrite (iter_ext _ (fun y => y)); [apply iter_id|].
      intros y. unfold AdminPage.step, AdminPage.dispatch, AdminPage.handleKeyPress.
      rewrite Hm. reflexivity.
Qed.

Lemma navigation_cycle_closes_witness :
  Nat.iter 3 (AdminPage.goToNext galleryProject) (JInt 2) = JInt 2 /\
  Nat.iter 3 (AdminPage.goToPrevious galleryProject) (JInt 2) = JInt 2 /\
  Nat.iter 3 (PortfolioPage.goToNext galleryProject) (JInt 2) = JInt 2 /\
  Nat.iter 3 (PortfolioPage.goToPrevious galleryProject) (JInt 2) = JInt 2 /\
  Nat.iter 3 (fun idx => AdminPage.step galleryProject idx (KeyDown "ArrowRight")) (JInt 2)
    = JInt 2 /\
  Nat.iter 3 (fun idx => AdminPage.step galleryProject idx (KeyDown "ArrowLeft")) (JInt 2)
    = JInt 2.
Proof.
  apply (navigation_cycle_closes galleryProject 2); vm_compute; intuition congruence.
Defined.

(** C4. Over a normalized sequence of length 0 or 1 the arrow keys are not
    bound and the arrows and thumbnails are not rendered, so that no event
    calls [goToNext] or [goToPrevious] (the only places that compute a
    remainder by the length), and every event leaves the index as it is; in
    both viewers. *)
Theorem navigation_disabled_without_gallery (p : Project.t) (idx : jsnum) (ev : UiEvent) :
  len (AdminPage.mediaItems p) <= 1 ->
  AdminPage.handleKeyPress p "ArrowRight" = None /\
  AdminPage.handleKeyPress p "ArrowLeft" = None /\
  AdminPage.arrowsRendered p idx = false /\
  AdminPage.dispatch p idx ev <> Some CallGoToNext /\
  AdminPage.dispatch p idx ev <> Some CallGoToPrevious /\
  AdminPage.step p idx ev = idx /\
  PortfolioPage.dispatch p idx ev <> Some CallGoToNext /\
  PortfolioPage.dispatch p idx ev <> Some CallGoToPrevious /\
  PortfolioPage.step p idx ev = idx.
Proof.
  intros HL.
  assert (Hm : AdminPage.hasMultipleMedia p = false).
  { unfold AdminPage.hasMultipleMedia. apply Z.ltb_ge. exact HL. }
  assert (Hd := dispatch_single p idx ev Hm).
  assert (Hstep : AdminPage.step p idx ev = idx).
  { unfold AdminPage.step. destruct Hd as [-> | ->]; reflexivity. }
  assert (Hnext : AdminPage.dispatch p idx ev <> Some CallGoToNext)
    by (destruct Hd as [-> | ->]; discriminate).
  assert (Hprev : AdminPage.dispatch p idx ev <> Some CallGoToPrevious)
    by (destruct Hd as [-> | ->]; discriminate).
  change PortfolioPage.dispatch with AdminPage.dispatch.
  change PortfolioPage.step with AdminPage.step.
  unfold AdminPage.handleKeyPress, AdminPage.arrowsRendered. rewrite Hm.
  rewrite !andb_false_r.
  repeat split; solve [reflexivity | assumption].
Qed.

Lemma navigation_disabled_witness :
  AdminPage.handleKeyPress bareProject "ArrowRight" = None /\
  AdminPage.handleKeyPress bareProject "ArrowLeft" = None /\
  AdminPage.arrowsRendered bareProject (JInt 0) = false /\
  AdminPage.dispatch bareProject (JInt 0) (KeyDown "ArrowRight") <> Some CallGoToNext /\
  AdminPage.dispatch bareProject (JInt 0) (KeyDown "ArrowRight") <> Some CallGoToPrevious /\
  AdminPage.step bareProject (JInt 0) (KeyDown "ArrowRight") = JInt 0 /\
  PortfolioPage.dispatch bareProject (JInt 0) (KeyDown "ArrowRight") <> Some CallGoToNext /\
  PortfolioPage.dispatch bareProject (JInt 0) (KeyDown "ArrowRight") <> Some CallGoToPrevious /\
  PortfolioPage.step bareProject (JInt 0) (KeyDown "ArrowRight") = JInt 0.
Proof.
  apply (navigation_disabled_without_gallery bareProject (JInt 0) (KeyDown "ArrowRight")).
  vm_compute. discriminate.
Defined.

Lemma step_valid (p : Project.t) (idx : jsnum) (ev : UiEvent) :
  indexValid p idx -> indexValid p (AdminPage.step p idx ev).
Proof.
  intros Hv. destruct (AdminPage.hasMultipleMedia p) eqn:Hm.
  - apply hasMultipleMedia_spec in Hm.
    destruct Hv as (i & -> & Hi).
    assert (Hr : 0 <= i < len (AdminPage.mediaItems p)) by lia. clear Hi.
    assert (HL : 1 <= len (AdminPage.mediaItems p)) by lia.
    assert (Hnext : indexValid p (AdminPage.goToNext p (JInt i))).
    { destruct (next_in_range _ HL i Hr) as (j & Hj & Hjr).
      exists j. split; [exact Hj | right; exact Hjr]. }
    assert (Hprev : indexValid p (AdminPage.goToPrevious p (JInt i))).
    { destruct (previous_in_range _ HL i Hr) as (j & Hj & Hjr).
      exists j. split; [exact Hj | right; exact Hjr]. }
    assert (Hsame : indexValid p (JInt i)) by (exists i; split; [reflexivity | right; exact Hr]).
    unfold AdminPage.step.
    destruct ev as [key| | |n]; simpl.
    + unfold AdminPage.handleKeyPress.
      destruct ((key =? "ArrowRight")%string && AdminPage.hasMultipleMedia p)%bool;
        [exact Hnext|].
      destruct ((key =? "ArrowLeft")%string && AdminPage.hasMultipleMedia p)%bool;
        [exact Hprev|].
      destruct (key =? "Escape")%string; exact Hsame.
    + destruct (AdminPage.arrowsRendered p (JInt i)); [exact Hprev | exact Hsame].
    + destruct (AdminPage.arrowsRendered p (JInt i)); [exact Hnext | exact Hsame].
    + destruct (AdminPage.thumbnailRendered p n) eqn:Ht; [|exact Hsame].
      unfold AdminPage.thumbnailRendered in Ht.
      apply andb_true_iff in Ht. destruct Ht as [_ Ht]. apply Z.ltb_lt in Ht.
      exists (Z.of_nat n). split; [reflexivity | right; lia].
  - unfold AdminPage.step.
    destruct (dispatch_single p idx ev Hm) as [-> | ->]; exact Hv.
Qed.

Lemma run_valid (p : Project.t) (evs : list UiEvent) (idx : jsnum) :
  indexValid p idx -> indexValid p (fold_left (AdminPage.step p) evs idx).
Proof.
  revert idx. induction evs as [|ev evs IH]; intros idx Hv; simpl.
  - exact Hv.
  - apply IH. apply step_valid. exact Hv.
Qed.

Lemma zero_valid (p : Project.t) : indexValid p (JInt 0).
Proof.
  exists 0. split; [reflexivity|].
  unfold len. destruct (AdminPage.mediaItems p) as [|m ms]; simpl; lia.
Qed.








(** A gallery looked at on its third item: re-selected from its own card
    of the projects section it stays on the third item; re-selected from
    the list of all projects, or after the theme is switched, it is back on
    the first one; and another project starts on its first item. *)
Example public_selection_sample :
  let opened :=
    fold_left PortfolioPage.pageStep
      [PortfolioPage.SetProjects [galleryProject; legacyProject];
       PortfolioPage.ClickCard 0;
       PortfolioPage.Viewer ClickNext; PortfolioPage.Viewer ClickNext]
      PortfolioPage.initialPage in
  PortfolioPage.selectedProject opened
    = Some (PortfolioPage.mkPreview 1 0 galleryProject (JInt 2)) /\
  PortfolioPage.selectedProject (PortfolioPage.pageStep opened (PortfolioPage.ClickCard 0))
    = Some (PortfolioPage.mkPreview 1 0 galleryProject (JInt 2)) /\
  PortfolioPage.selectedProject (PortfolioPage.pageStep opened PortfolioPage.Rerender)
    = Some (PortfolioPage.mkPreview 1 0 galleryProject (JInt 0)) /\
  PortfolioPage.selectedProject
    (fold_left PortfolioPage.pageStep
       [PortfolioPage.OpenAllProjects; PortfolioPage.Viewer ClickNext;
        PortfolioPage.ClickListCard 0] opened)
    = Some (PortfolioPage.mkPreview 1 0 galleryProject (JInt 0)) /\
  PortfolioPage.selectedProject (PortfolioPage.pageStep opened (PortfolioPage.ClickCard 1))
    = Some (PortfolioPage.mkPreview 1 1 legacyProject (JInt 0)).
Proof. repeat split. Qed.


(** In the dashboard a project put in place of the one on show keeps the
    index of the viewer: from the third item of a gallery to a project with
    one item, the index is 2 and no item is current. *)
Remark admin_switch_keeps_index :
  fold_left previewStep
    [Open galleryProject; InViewer ClickNext; InViewer ClickNext; Open legacyProject] None
    = Some (AdminPage.mkPreview legacyProject (JInt 2)) /\
  AdminPage.currentMedia legacyProject (JInt 2) = None.
Proof. split; reflexivity. Qed.

(* ===================================================================== *)
(** * Properties of the session gate *)
(* ===================================================================== *)

Ltac run_callback d :=
  unfold authCallback, onCatch, stillMounted, grants, count;
  destruct d as [[u|] [| |role] ok]; simpl;
  try (destruct (roleIsAdmin role) eqn:?; simpl);
  try (destruct ok; simpl).

Lemma count_app (f : Event -> bool) (l1 l2 : list Event) :
  count f (l1 ++ l2) = (count f l1 + count f l2)%nat.
Proof. unfold count. rewrite filter_app, length_app. reflexivity. Qed.

Lemma run_app (steps1 steps2 : list Step) (s : Session) :
  run s (steps1 ++ steps2)
    = (fst (run (fst (run s steps1)) steps2),
       snd (run s steps1) ++ snd (run (fst (run s steps1)) steps2)).
Proof.
  revert s. induction steps1 as [|e steps1 IH]; intros s.
  - cbn [app run fst snd]. destruct (run s steps2). reflexivity.
  - cbn [app run fst snd]. rewrite IH. cbn [fst snd]. rewrite app_assoc. reflexivity.
Qed.

(** A call that nothing overlaps does what the listener does when it is
    run from its beginning to its end, and the listener that is subscribed
    after it holds the [hasShownWelcome] that it left. *)
Lemma alone_runs_listener (s : Session) (d : Delivery) :
  pending s = [] ->
  let result := authCallback stillMounted (captured s) d (state s) in
  run s (alone d)
    = (mkSession (fst result)
         (if Bool.eqb (hasShownWelcome (fst result)) (captured s)
          then currentRun s else S (currentRun s))
         (hasShownWelcome (fst result)) [],
       snd result).
Proof.
  destruct s as [st n c ps]. cbn [pending state captured currentRun]. intros ->.
  unfold alone, authCallback, onCatch, stillMounted.
  destruct d as [[u|] [| |role] ok];
    cbn [run sessionStep deliver resume commit currentUser userDoc signOutOk delivery
         identity suspended effectRun shownWelcome pending state captured currentRun
         nth_error firstn skipn app fst snd negb onCatch];
    rewrite ?Nat.eqb_refl;
    cbn [run sessionStep deliver resume commit currentUser userDoc signOutOk delivery
         identity suspended effectRun shownWelcome pending state captured currentRun
         nth_error firstn skipn app fst snd negb onCatch];
    try (destruct (roleIsAdmin role));
    try (destruct c);
    try (destruct ok);
    cbn [run sessionStep deliver resume commit currentUser userDoc signOutOk delivery
         identity suspended effectRun shownWelcome pending state captured currentRun
         nth_error firstn skipn app fst snd negb onCatch hasShownWelcome user isAdmin
         checkingAuth];
    rewrite ?Nat.eqb_refl;
    cbn [run sessionStep deliver resume commit currentUser userDoc signOutOk delivery
         identity suspended effectRun shownWelcome pending state captured currentRun
         nth_error firstn skipn app fst snd negb onCatch hasShownWelcome user isAdmin
         checkingAuth];
    try (destruct (hasShownWelcome st));
    reflexivity.
Qed.

(** Once the welcome has been shown and the listener holds that, a call
    that nothing overlaps does not show it again. *)
Lemma alone_after_welcome (s : Session) (d : Delivery) :
  pending s = [] -> captured s = true -> hasShownWelcome (state s) = true ->
  count isGranted (snd (run s (alone d))) = 0%nat /\
  pending (fst (run s (alone d))) = [] /\
  captured (fst (run s (alone d))) = true /\
  hasShownWelcome (state (fst (run s (alone d)))) = true.
Proof.
  intros Hp Hc Hs. rewrite (alone_runs_listener s d Hp). cbn [fst snd pending captured state].
  rewrite Hc. run_callback d; rewrite ?Hs; auto.
Qed.

(** Before the welcome, a call that nothing overlaps shows it exactly when
    it grants access, and the listener subscribed after it holds that. *)
Lemma alone_before_welcome (s : Session) (d : Delivery) :
  pending s = [] -> captured s = false -> hasShownWelcome (state s) = false ->
  count isGranted (snd (run s (alone d))) = (if grants d then 1 else 0)%nat /\
  pending (fst (run s (alone d))) = [] /\
  captured (fst (run s (alone d))) = grants d /\
  hasShownWelcome (state (fst (run s (alone d)))) = grants d.
Proof.
  intros Hp Hc Hs. rewrite (alone_runs_listener s d Hp). cbn [fst snd pending captured state].
  rewrite Hc. run_callback d; rewrite ?Hs; auto.
Qed.

Lemma turns_after_welcome (ds : list Delivery) (s : Session) :
  pending s = [] -> captured s = true -> hasShownWelcome (state s) = true ->
  count isGranted (snd (run s (flat_map alone ds))) = 0%nat.
Proof.
  revert s. induction ds as [|d ds IH]; intros s Hp Hc Hs; [reflexivity|].
  cbn [flat_map]. rewrite run_app. cbn [snd]. rewrite count_app.
  destruct (alone_after_welcome s d Hp Hc Hs) as (H0 & H1 & H2 & H3).
  rewrite H0, IH; [reflexivity | exact H1 | exact H2 | exact H3].
Qed.

(** When no two calls of the listener overlap, and React renders between
    them, the welcome is shown once if a delivery grants access and not at
    all otherwise. *)
Lemma welcome_once_without_overlap (ds : list Delivery) (s : Session) :
  pending s = [] -> captured s = false -> hasShownWelcome (state s) = false ->
  count isGranted (snd (run s (flat_map alone ds)))
    = (if existsb grants ds then 1 else 0)%nat.
Proof.
  revert s. induction ds as [|d ds IH]; intros s Hp Hc Hs; [reflexivity|].
  cbn [flat_map existsb]. rewrite run_app. cbn [snd]. rewrite count_app.
  destruct (alone_before_welcome s d Hp Hc Hs) as (H0 & H1 & H2 & H3).
  rewrite H0. destruct (grants d) eqn:Hg; cbn [orb].
  - rewrite turns_after_welcome; [reflexivity | exact H1 | exact H2 | exact H3].
  - rewrite IH; [reflexivity | exact H1 | exact H2 | exact H3].
Qed.

(** C6, against the code. The admin identity is delivered twice to the
    listener of one mounted dashboard, the second time while the first call
    waits for the role record; both calls hold the [hasShownWelcome] that
    the effect captured, [false], and when the two fetches settle before
    React renders, each call shows the notification that access is
    granted: it is emitted twice. When React renders between the two, the
    cleanup of the effect stops the second call and the notification is
    emitted once, as it is when the second delivery comes after the first
    call has ended and React has rendered. *)
Theorem welcome_repeated_when_calls_overlap :
  count isGranted
    (snd (run mount [Deliver adminDelivery; Deliver adminDelivery; Resume 0; Resume 0]))
    = 2%nat /\
  pending
    (fst (run mount [Deliver adminDelivery; Deliver adminDelivery; Resume 0; Resume 0]))
    = [] /\
  count isGranted
    (snd (run mount [Deliver adminDelivery; Deliver adminDelivery; Resume 0; Commit;
                     Resume 0]))
    = 1%nat /\
  count isGranted (snd (run mount (alone adminDelivery ++ alone adminDelivery))) = 1%nat.
Proof. repeat split. Qed.

(** An admin call waits for the role record when the provider reports that
    nobody is signed in; the record arrives afterwards and the dashboard
    ends on the panel, with the redirect to the login screen issued. *)
Example late_grant_after_sign_out :
  let result := run mount [Deliver adminDelivery; Deliver (mkDelivery None DocMissing true);
                           Resume 0] in
  isAdmin (state (fst result)) = true /\
  user (state (fst result)) = UserIs adminUser /\
  snd result = [GetDoc "users" "uid-1"; RouterPush loginPath;
                ShowToast success grantedMessage].
Proof. repeat split. Qed.



(* ===================================================================== *)
(** * Properties of the upload form *)
(* ===================================================================== *)

Lemma roleIsAdmin_true (role : option string) :
  roleIsAdmin role = true -> role = Some "admin".
Proof.
  destruct role as [r|]; simpl; [|discriminate].
  intros H. apply String.eqb_eq in H. congruence.
Qed.

(** C5. Every submission checks the role first. If there is no user, or
    the role fetch fails, or the role record does not exist, or its role is
    not [admin], the submission ends with one error notification and issues
    no upload and no record create or update. Conversely, whenever an upload
    or a create or update is issued, the role record was fetched as the
    first action of the submission, exists, and holds the role [admin]. *)
Theorem submission_requires_admin (env : UploadForm.Env) (props : UploadForm.Props)
        (selectedFiles : list File.t) (selectedType : ProjectType) (data : IFormInput.t) :
  let log := trace (UploadForm.onSubmit env props selectedFiles selectedType data) in
  (verified env props = false ->
     filter UploadForm.isMutation log = [] /\
     exists message, filter UploadForm.isToast log = [ShowToast error message]) /\
  (forall e, In e log -> UploadForm.isMutation e = true ->
     exists u rest,
       UploadForm.user props = Some u /\
       UploadForm.userDoc env = DocExists (Some "admin") /\
       log = GetDoc "users" (User.uid u) :: rest).
Proof.
  unfold verified, UploadForm.onSubmit, UploadForm.verifyAdmin, UploadForm.showToast, trace.
  destruct (UploadForm.user props) as [u|]; simpl.
  2:{ split; [intros _; split; [reflexivity | eexists; reflexivity]|].
      intros e [<-|[]] He. discriminate He. }
  destruct (UploadForm.userDoc env) as [| |role]; simpl.
  - split; [intros _; split; [reflexivity | eexists; reflexivity]|].
    intros e [<-|[<-|[<-|[]]]] He; discriminate He.
  - split; [intros _; split; [reflexivity | eexists; reflexivity]|].
    intros e [<-|[<-|[]]] He; discriminate He.
  - destruct (roleIsAdmin role) eqn:Hr; simpl.
    + split; [discriminate|].
      intros e _ _. exists u. eexists. split; [reflexivity|].
      split; [rewrite (roleIsAdmin_true role Hr); reflexivity | reflexivity].
    + split; [intros _; split; [reflexivity | eexists; reflexivity]|].
      intros e [<-|[<-|[]]] He; discriminate He.
Qed.

(** The interval that fires [n] times logs [n] additions to the progress
    and throws nothing. *)
Lemma progressInterval_run (n : nat) :
  UploadForm.progressInterval n = (repeat BumpUploadProgress n, Val tt).
Proof.
  induction n as [|n IH]; [reflexivity|].
  cbn [UploadForm.progressInterval repeat]. rewrite IH. reflexivity.
Qed.

Lemma mutations_of_ticks (n : nat) :
  filter UploadForm.isMutation (repeat BumpUploadProgress n) = [].
Proof. induction n as [|n IH]; [reflexivity | exact IH]. Qed.

Section UploadLoop.

Variable env : UploadForm.Env.
Variable selectedType : ProjectType.
Hypothesis cloudName_set : truthy (UploadForm.cloudName env) = true.
Hypothesis preset_set : truthy (UploadForm.preset env) = true.

Lemma uploadToCloudinary_ok (file : File.t) (url : string) :
  UploadForm.post env file = PostOk url ->
  UploadForm.uploadToCloudinary env file (UploadForm.resourceType selectedType)
    = (uploadEvents env selectedType file, Val url).
Proof.
  intros Hp. unfold UploadForm.uploadToCloudinary, UploadForm.validateCloudinaryConfig.
  rewrite cloudName_set, preset_set, progressInterval_run, Hp. reflexivity.
Qed.

(** The loop over files that all upload, then over the rest. *)
Lemma uploadLoop_app (done rest : list File.t) (uploadedMedia : list MediaItem.t) :
  Forall (uploads env selectedType) done ->
  UploadForm.uploadLoop env selectedType (done ++ rest) uploadedMedia =
    (flat_map (uploadEvents env selectedType) done
       ++ fst (UploadForm.uploadLoop env selectedType rest
                 (uploadedMedia ++ map (uploadedItem env selectedType) done)),
     snd (UploadForm.uploadLoop env selectedType rest
            (uploadedMedia ++ map (uploadedItem env selectedType) done))).
Proof.
  intros Hdone. revert uploadedMedia.
  induction Hdone as [|file done [Hsize [url Hurl]] _ IH]; intros uploadedMedia.
  - simpl. rewrite app_nil_r. apply surjective_pairing.
  - cbn [app UploadForm.uploadLoop flat_map map].
    assert (Hcheck : (File.size file >? UploadForm.maxSize selectedType) = false)
      by (rewrite Z.gtb_ltb; apply Z.ltb_ge; exact Hsize).
    rewrite Hcheck.
    rewrite (uploadToCloudinary_ok file url Hurl). unfold bind.
    assert (Hitem : uploadedItem env selectedType file
                    = MediaItem.mk (UploadForm.resourceType selectedType) url)
      by (unfold uploadedItem; rewrite Hurl; reflexivity).
    rewrite IH, Hitem. cbn [fst snd uploadEvents app].
    rewrite <- !app_assoc. reflexivity.
Qed.

(** The loop stops at a file over the cap, before any request for it. *)
Lemma uploadLoop_oversized (file : File.t) (rest : list File.t)
      (uploadedMedia : list MediaItem.t) :
  UploadForm.maxSize selectedType < File.size file ->
  UploadForm.uploadLoop env selectedType (file :: rest) uploadedMedia
    = ([], Thrown (UploadForm.sizeLimitMessage file)).
Proof.
  intros Hsize. simpl.
  assert (Hcheck : (File.size file >? UploadForm.maxSize selectedType) = true)
    by (rewrite Z.gtb_ltb; apply Z.ltb_lt; exact Hsize).
  rewrite Hcheck. reflexivity.
Qed.

End UploadLoop.

Lemma len_app_cons {A : Type} (l1 l2 : list A) (x : A) : (0 <? len (l1 ++ x :: l2)) = true.
Proof.
  apply Z.ltb_lt. unfold len. rewrite length_app. simpl. lia.
Qed.

Lemma mutations_of_uploads (env : UploadForm.Env) (selectedType : ProjectType)
      (files : list File.t) :
  filter UploadForm.isMutation (flat_map (uploadEvents env selectedType) files)
    = map (CloudinaryPost (str (UploadForm.cloudName env))
                          (UploadForm.resourceType selectedType)) files.
Proof.
  induction files as [|f files IH]; [reflexivity|].
  cbn [flat_map map]. rewrite filter_app, IH. unfold uploadEvents.
  cbn [filter UploadForm.isMutation]. rewrite filter_app, mutations_of_ticks. reflexivity.
Qed.

Lemma sizeLimitMessage_truthy (file : File.t) :
  truthy (Some (UploadForm.sizeLimitMessage file)) = true.
Proof. reflexivity. Qed.

(** C8. In a submission that passed the role check, when the files before
    one all are within the cap and are uploaded, and that one is over the
    cap of the active type (50 MiB for [motion], 5 MiB otherwise), then the
    submission logs exactly: the role fetch, the start of the upload, for
    each of the files before it, in order, its request, the progress that
    the interval adds while the request is in flight and the progress set
    to 100, and then the error [File "<name>" exceeds the size limit] with
    the name of the oversized file, and the end of the submission. Nothing
    is requested for the oversized file or the files after it, no record is
    created or updated, and nothing is issued for the uploads that were
    made: they are left as they are. The media host has to be configured
    only when there is a file before the oversized one. *)
Theorem oversized_file_aborts (env : UploadForm.Env) (props : UploadForm.Props)
        (u : User.t) (done : list File.t) (file : File.t) (rest : list File.t)
        (selectedType : ProjectType) (data : IFormInput.t) :
  UploadForm.user props = Some u ->
  UploadForm.userDoc env = DocExists (Some "admin") ->
  (done <> [] ->
   truthy (UploadForm.cloudName env) = true /\ truthy (UploadForm.preset env) = true) ->
  Forall (uploads env selectedType) done ->
  UploadForm.maxSize selectedType < File.size file ->
  let quote := String (ascii_of_nat 34) EmptyString in
  let log :=
    trace (UploadForm.onSubmit env props (done ++ file :: rest) selectedType data) in
  log = [GetDoc "users" (User.uid u); SetIsLoading true; SetUploadProgress 0;
         ShowToast warning "Uploading media..."]
        ++ flat_map
             (fun f =>
                CloudinaryPost (str (UploadForm.cloudName env))
                               (UploadForm.resourceType selectedType) f
                :: repeat BumpUploadProgress (UploadForm.ticks env f)
                ++ [SetUploadProgress 100])
             done
        ++ [ConsoleError "Upload Error:";
            ShowToast error
              ("File " ++ quote ++ File.name file ++ quote ++ " exceeds the size limit")%string;
            SetUploadProgress 0; SetIsLoading false] /\
  filter UploadForm.isMutation log
    = map (CloudinaryPost (str (UploadForm.cloudName env))
                          (UploadForm.resourceType selectedType)) done /\
  UploadForm.maxSize motion = 52428800 /\
  UploadForm.maxSize graphics = 5242880 /\
  UploadForm.maxSize frontend = 5242880.
Proof.
  intros Hu Hdoc Hconfig Hdone Hsize quote log.
  assert (Hloop :
    UploadForm.uploadLoop env selectedType (done ++ file :: rest) []
    = (flat_map (uploadEvents env selectedType) done,
       Thrown (UploadForm.sizeLimitMessage file))).
  { destruct done as [|first done].
    - apply (uploadLoop_oversized env selectedType file rest [] Hsize).
    - destruct Hconfig as [Hcloud Hpreset]; [discriminate|].
      rewrite (uploadLoop_app env selectedType Hcloud Hpreset (first :: done)
                 (file :: rest) [] Hdone).
      rewrite (uploadLoop_oversized env selectedType file rest _ Hsize).
      cbn [fst snd]. rewrite app_nil_r. reflexivity. }
  assert (Hlog : log =
    [GetDoc "users" (User.uid u); SetIsLoading true; SetUploadProgress 0;
     ShowToast warning "Uploading media..."]
    ++ flat_map (uploadEvents env selectedType) done
    ++ [ConsoleError "Upload Error:";
        ShowToast error (UploadForm.sizeLimitMessage file);
        SetUploadProgress 0; SetIsLoading false]).
  { subst log.
    unfold UploadForm.onSubmit, UploadForm.verifyAdmin, UploadForm.submitBody.
    rewrite Hu, Hdoc, len_app_cons, Hloop.
    unfold UploadForm.showToast, bind, tryCatch, finally, emit, ret, throw, trace.
    cbn [fst snd roleIsAdmin String.eqb Ascii.eqb Bool.eqb negb app].
    unfold UploadForm.failureMessage. rewrite sizeLimitMessage_truthy.
    rewrite <- app_assoc. reflexivity. }
  split; [exact Hlog|]. split; [|repeat split].
  rewrite Hlog, !filter_app, mutations_of_uploads. cbn. apply app_nil_r.
Qed.

(** Case analysis on the place of an event in a log, dropping the entries
    of another kind; what remains are the entries that can be the event and
    the parts of the log that are not literal. *)
Ltac scan_log H :=
  lazymatch type of H with
  | In _ (_ ++ _) => apply in_app_or in H; destruct H as [H|H]; scan_log H
  | In _ (_ :: _) => destruct H as [H|H]; [try discriminate H | scan_log H]
  | In _ [] => destruct H
  | _ \/ _ => destruct H as [H|H]; [try discriminate H | scan_log H]
  | False => destruct H
  | _ => idtac
  end.

Lemma uploadToCloudinary_events (env : UploadForm.Env) (selectedType : ProjectType)
      (file : File.t) (e : Event) :
  File.size file <= UploadForm.maxSize selectedType ->
  In e (fst (UploadForm.uploadToCloudinary env file (UploadForm.resourceType selectedType))) ->
  uploadEvent selectedType e.
Proof.
  intros Hsize. unfold UploadForm.uploadToCloudinary, UploadForm.validateCloudinaryConfig.
  destruct (negb (truthy (UploadForm.cloudName env)) || negb (truthy (UploadForm.preset env)))%bool;
    [intros []|].
  rewrite progressInterval_run.
  assert (Hticks : forall e', In e' (repeat BumpUploadProgress (UploadForm.ticks env file)) ->
                              uploadEvent selectedType e')
    by (intros e' He'; apply repeat_spec in He'; subst e'; exact I).
  destruct (UploadForm.post env file);
    unfold bind, tryCatch, emit, ret, throw; cbn [fst snd app]; intros H;
    rewrite ?app_nil_r, <- ?app_assoc in H;
    apply in_inv in H; (destruct H as [<-|H]; [exact Hsize|]);
    apply in_app_or in H; (destruct H as [H|H]; [auto|]);
    cbn [In app] in H; repeat (destruct H as [<-|H]; [exact I|]); destruct H.
Qed.

Lemma uploadLoop_events (env : UploadForm.Env) (selectedType : ProjectType)
      (files : list File.t) (uploadedMedia : list MediaItem.t) (e : Event) :
  In e (fst (UploadForm.uploadLoop env selectedType files uploadedMedia)) ->
  uploadEvent selectedType e.
Proof.
  revert uploadedMedia. induction files as [|file files IH]; intros uploadedMedia; simpl.
  - intros [].
  - destruct (File.size file >? UploadForm.maxSize selectedType) eqn:Hcheck; [intros []|].
    rewrite Z.gtb_ltb in Hcheck. apply Z.ltb_ge in Hcheck.
    pose proof (uploadToCloudinary_events env selectedType file e Hcheck) as Hone.
    destruct (UploadForm.uploadToCloudinary env file (UploadForm.resourceType selectedType))
      as [l [url|message]]; simpl in *.
    + intros H. apply in_app_or in H. destruct H as [H|H]; [auto | eapply IH; eauto].
    + exact Hone.
Qed.

(** Every request to the media host is for a file that passed the size
    check, in every submission. *)
Lemma posted_files_within_cap (env : UploadForm.Env) (props : UploadForm.Props)
      (selectedFiles : list File.t) (selectedType : ProjectType) (data : IFormInput.t)
      (name : string) (kind : MediaType) (file : File.t) :
  In (CloudinaryPost name kind file)
     (trace (UploadForm.onSubmit env props selectedFiles selectedType data)) ->
  File.size file <= UploadForm.maxSize selectedType.
Proof.
  unfold UploadForm.onSubmit, UploadForm.verifyAdmin, UploadForm.submitBody,
    UploadForm.showToast, UploadForm.write, trace.
  pose proof (uploadLoop_events env selectedType selectedFiles []
                (CloudinaryPost name kind file)) as Hloop.
  destruct (UploadForm.user props) as [u|]; [|cbn; intros H; scan_log H].
  destruct (UploadForm.userDoc env) as [| |role];
    try solve [cbn; intros H; scan_log H].
  destruct (roleIsAdmin role); [|cbn; intros H; scan_log H].
  destruct (0 <? len selectedFiles);
    [destruct (UploadForm.uploadLoop env selectedType selectedFiles []) as [l [media|message]]|];
    destruct (UploadForm.initialData props) as [p|];
    destruct (UploadForm.updateDocResult env);
    destruct (UploadForm.addDocResult env);
    destruct (UploadForm.hasOnFinish props);
    cbn; intros H; scan_log H; apply Hloop; exact H.
Qed.






Lemma oversized_file_aborts_witness :
  let log :=
    trace (UploadForm.onSubmit sampleEnv createProps ([smallFile] ++ bigFile :: [lateFile])
             graphics posterInput) in
  log = [GetDoc "users" "uid-1"; SetIsLoading true; SetUploadProgress 0;
         ShowToast warning "Uploading media...";
         CloudinaryPost "demo" image smallFile;
         BumpUploadProgress; BumpUploadProgress; SetUploadProgress 100;
         ConsoleError "Upload Error:";
         ShowToast error
           ("File " ++ dquote ++ "big.png" ++ dquote ++ " exceeds the size limit")%string;
         SetUploadProgress 0; SetIsLoading false] /\
  filter UploadForm.isMutation log = [CloudinaryPost "demo" image smallFile] /\
  UploadForm.maxSize motion = 52428800 /\
  UploadForm.maxSize graphics = 5242880 /\
  UploadForm.maxSize frontend = 5242880.
Proof.
  assert (Hdone : Forall (uploads sampleEnv graphics) [smallFile]).
  { constructor; [|constructor].
    split; [vm_compute; discriminate | eexists; reflexivity]. }
  exact (oversized_file_aborts sampleEnv createProps adminUser [smallFile] bigFile
           [lateFile] graphics posterInput eq_refl eq_refl
           (fun _ => conj eq_refl eq_refl) Hdone eq_refl).
Defined.


(** A submission by a user whose role is not [admin] fetches the role
    record, reports, and ends. *)
Example editor_submission_stops :
  trace (UploadForm.onSubmit editorEnv createProps [smallFile] graphics posterInput)
  = [GetDoc "users" "uid-1"; ShowToast error "Admin privileges required for upload."].
Proof. reflexivity. Qed.

(** A submission by the admin that creates a project: the role fetch, the
    upload, then the record. *)
Example admin_submission_creates :
  filter UploadForm.isMutation
    (trace (UploadForm.onSubmit sampleEnv createProps [smallFile] graphics posterInput))
  = [CloudinaryPost "demo" image smallFile;
     AddDoc "projects"
       (ProjectData.mk "Posters" "Print work" graphics
          [MediaItem.mk image "https://res.example/a.png"] None ["print"; "brand"]
          ServerTimestamp (Some ServerTimestamp) (Some "uid-1")
          (Some "admin@portfolio.com") (Some "published") (Some false) (Some 0) (Some 0))].
Proof. reflexivity. Qed.

(* ===================================================================== *)
(** * Further properties of the gallery and the cards *)
(* ===================================================================== *)

(** X1. Over a sequence that is not empty and from an index in range,
    [goToPrevious] undoes [goToNext] and [goToNext] undoes [goToPrevious]. *)
Theorem next_previous_inverse (p : Project.t) (i : Z) :
  let L := len (AdminPage.mediaItems p) in
  1 <= L -> 0 <= i < L ->
  AdminPage.goToPrevious p (AdminPage.goToNext p (JInt i)) = JInt i /\
  AdminPage.goToNext p (AdminPage.goToPrevious p (JInt i)) = JInt i.
Proof.
  intros L HL Hi. unfold AdminPage.goToPrevious, AdminPage.goToNext. fold L.
  split.
  - rewrite (next_int L HL i) by lia.
    rewrite (previous_int L HL) by (apply Z.mod_pos_bound; lia).
    rewrite Zminus_mod_idemp_l. replace (i + 1 - 1) with i by lia.
    rewrite Z.mod_small by lia. reflexivity.
  - rewrite (previous_int L HL i) by lia.
    rewrite (next_int L HL) by (apply Z.mod_pos_bound; lia).
    rewrite Zplus_mod_idemp_l. replace (i - 1 + 1) with i by lia.
    rewrite Z.mod_small by lia. reflexivity.
Qed.

Lemma next_previous_inverse_witness :
  AdminPage.goToPrevious galleryProject (AdminPage.goToNext galleryProject (JInt 2)) = JInt 2 /\
  AdminPage.goToNext galleryProject (AdminPage.goToPrevious galleryProject (JInt 0)) = JInt 0.
Proof.
  split.
  - apply (next_previous_inverse galleryProject 2); vm_compute; intuition congruence.
  - apply (next_previous_inverse galleryProject 0); vm_compute; intuition congruence.
Defined.

(** X2. Over a normalized sequence that is not empty, whatever the user
    does after the viewer mounts, there is a current media item to show,
    and it is an item of the sequence. *)
Theorem current_media_defined (p : Project.t) (evs : list UiEvent) :
  AdminPage.mediaItems p <> [] ->
  exists item,
    AdminPage.currentMedia p (fold_left (AdminPage.step p) evs (JInt 0)) = Some item /\
    In item (AdminPage.mediaItems p).
Proof.
  intros Hne.
  destruct (run_valid p evs (JInt 0) (zero_valid p)) as (i & -> & Hi).
  assert (Hr : 0 <= i < len (AdminPage.mediaItems p)).
  { destruct Hi as [[H0 _] | Hr]; [|exact Hr].
    unfold len in H0. destruct (AdminPage.mediaItems p); [congruence | simpl in H0; lia]. }
  unfold AdminPage.currentMedia, itemAt.
  destruct (Z.ltb_spec i 0); [lia|].
  destruct (nth_error (AdminPage.mediaItems p) (Z.to_nat i)) as [item|] eqn:Hn.
  - exists item. split; [reflexivity | eapply nth_error_In; exact Hn].
  - apply nth_error_None in Hn. unfold len in Hr. lia.
Qed.

Lemma current_media_defined_witness :
  exists item,
    AdminPage.currentMedia galleryProject
      (fold_left (AdminPage.step galleryProject)
                 [KeyDown "ArrowLeft"; ClickThumbnail 1; ClickNext] (JInt 0)) = Some item /\
    In item (AdminPage.mediaItems galleryProject).
Proof.
  apply (current_media_defined galleryProject
           [KeyDown "ArrowLeft"; ClickThumbnail 1; ClickNext]).
  discriminate.
Defined.

(** X3. The badge of a card and the navigation of the viewer agree: the
    card marks a project as having several media exactly when the viewer
    of that project has more than one item, and the number in the badge is
    then the number of items of the viewer. *)
Theorem card_badge_matches_viewer (p : Project.t) :
  Dashboard.hasMultipleMedia p = AdminPage.hasMultipleMedia p /\
  (Dashboard.hasMultipleMedia p = true ->
   Dashboard.badgeCount p = len (AdminPage.mediaItems p)).
Proof.
  unfold Dashboard.hasMultipleMedia, AdminPage.hasMultipleMedia, Dashboard.badgeCount,
    AdminPage.mediaItems.
  destruct (Project.media p) as [[|m [|m' ms]]|]; cbn -[Z.of_nat Z.ltb];
    destruct (truthy (Project.mediaUrl p)); cbn -[Z.of_nat Z.ltb];
    split; try reflexivity; try discriminate.
  all: unfold len; simpl List.length; try (intros _; reflexivity).
  all: destruct (Z.ltb_spec 1 (Z.of_nat (S (S (List.length ms))))); try reflexivity; lia.
Qed.

(** X4. A click on a thumbnail of the strip makes its item the current
    one. *)
Theorem thumbnail_selects (p : Project.t) (idx : jsnum) (n : nat) :
  AdminPage.hasMultipleMedia p = true ->
  (n < List.length (AdminPage.mediaItems p))%nat ->
  AdminPage.step p idx (ClickThumbnail n) = JInt (Z.of_nat n) /\
  AdminPage.currentMedia p (AdminPage.step p idx (ClickThumbnail n))
    = nth_error (AdminPage.mediaItems p) n.
Proof.
  intros Hm Hn.
  assert (Hstep : AdminPage.step p idx (ClickThumbnail n) = JInt (Z.of_nat n)).
  { unfold AdminPage.step, AdminPage.dispatch, AdminPage.thumbnailRendered. rewrite Hm.
    assert (Hlt : (Z.of_nat n <? len (AdminPage.mediaItems p)) = true)
      by (apply Z.ltb_lt; unfold len; lia).
    rewrite Hlt. reflexivity. }
  split; [exact Hstep|]. rewrite Hstep. unfold AdminPage.currentMedia, itemAt.
  destruct (Z.ltb_spec (Z.of_nat n) 0); [lia|]. rewrite Nat2Z.id. reflexivity.
Qed.

Lemma thumbnail_selects_witness :
  AdminPage.step galleryProject (JInt 0) (ClickThumbnail 2) = JInt 2 /\
  AdminPage.currentMedia galleryProject
    (AdminPage.step galleryProject (JInt 0) (ClickThumbnail 2))
    = Some (MediaItem.mk video "https://cdn.example/c.mp4").
Proof.
  apply (thumbnail_selects galleryProject (JInt 0) 2); [reflexivity | simpl; lia].
Defined.

(** X5. A card shows at most three tags, the first ones in their order,
    and the [+n] after them counts exactly the tags that are left out. *)
Theorem card_tags_accounted (p : Project.t) :
  len (Dashboard.shownTags p) <= 3 /\
  Dashboard.shownTags p ++ skipn 3 (Project.tags p) = Project.tags p /\
  len (Dashboard.shownTags p)
    + match Dashboard.moreTags p with Some n => n | None => 0 end
    = len (Project.tags p).
Proof.
  unfold Dashboard.shownTags, Dashboard.moreTags, len.
  rewrite length_firstn. split; [lia|]. split; [apply firstn_skipn|].
  destruct (Z.ltb_spec 3 (Z.of_nat (List.length (Project.tags p)))); lia.
Qed.

(* ===================================================================== *)
(** * Further properties of the session gate *)
(* ===================================================================== *)

(** The verdict of a delivery to a mounted dashboard, read off the state. *)
Lemma callback_verdict (shownWelcome : bool) (d : Delivery) (st : AuthState) :
  isAdmin (fst (authCallback stillMounted shownWelcome d st)) = grants d /\
  checkingAuth (fst (authCallback stillMounted shownWelcome d st)) = false /\
  (grants d = true ->
     exists u, currentUser d = Some u /\
               user (fst (authCallback stillMounted shownWelcome d st)) = UserIs u) /\
  (grants d = false -> user (fst (authCallback stillMounted shownWelcome d st)) = UserNull).
Proof.
  unfold authCallback, onCatch, stillMounted, grants.
  destruct d as [[u|] [| |role] ok]; simpl;
    try (destruct (roleIsAdmin role) eqn:Hr; simpl);
    try (destruct shownWelcome; simpl);
    try (destruct ok; simpl);
    repeat split; try discriminate; try reflexivity;
    intros _; exists u; split; reflexivity.
Qed.

(** X6. After a delivery to a mounted dashboard the check is over, and
    access is granted exactly when the delivery carries an identity whose
    role record exists with the role [admin]; the identity is then kept,
    and it is dropped in every other case. *)
Theorem access_granted_iff_admin (shownWelcome : bool) (d : Delivery) (st : AuthState) :
  let result := authCallback stillMounted shownWelcome d st in
  isAdmin (fst result) = grants d /\
  checkingAuth (fst result) = false /\
  (grants d = true ->
     exists u, currentUser d = Some u /\ user (fst result) = UserIs u) /\
  (grants d = false -> user (fst result) = UserNull).
Proof.
  intros result. subst result. apply callback_verdict.
Qed.


(** X8. A listener that outlives its dashboard does nothing: called after
    the unmount it neither changes the state nor calls anything, and when
    the unmount happens while the role record is fetched, the fetch is all
    that it has done. *)
Theorem unmounted_listener_is_inert (isMounted : CheckPoint -> bool) (shownWelcome : bool)
        (d : Delivery) (st : AuthState) :
  (isMounted AtEntry = false ->
     authCallback isMounted shownWelcome d st = (st, [])) /\
  (forall u, isMounted AtEntry = true -> isMounted AfterGetDoc = false ->
             isMounted InCatch = false -> currentUser d = Some u ->
     authCallback isMounted shownWelcome d st = (st, [GetDoc "users" (User.uid u)])).
Proof.
  unfold authCallback, onCatch. split.
  - intros ->. reflexivity.
  - intros u -> -> -> ->. simpl. destruct (userDoc d); reflexivity.
Qed.

Lemma turns_leave_nothing_waiting (ds : list Delivery) (s : Session) :
  pending s = [] -> pending (fst (run s (flat_map alone ds))) = [].
Proof.
  revert s. induction ds as [|d ds IH]; intros s Hp; [exact Hp|].
  cbn [flat_map]. rewrite run_app. cbn [fst]. apply IH.
  rewrite (alone_runs_listener s d Hp). reflexivity.
Qed.

(** X9. The dashboard starts on the verifying screen. When no two calls of
    the listener overlap (each delivery comes after the call before it has
    ended and React has rendered), then after the deliveries of a session
    the dashboard shows the panel exactly when the last delivery granted
    access and the access-denied screen otherwise, whatever came before,
    and the list of projects is subscribed to under the same condition.
    With calls that overlap this is not so: when the provider reports that
    nobody is signed in while an admin call waits for the role record, the
    dashboard ends on the panel. *)
Theorem panel_iff_last_verdict_grants (ds : list Delivery) (d : Delivery) :
  Dashboard.screen initialAuthState = Dashboard.Verifying /\
  Dashboard.screen (state (fst (run mount (flat_map alone (ds ++ [d])))))
    = (if grants d then Dashboard.Panel else Dashboard.AccessDenied) /\
  Dashboard.subscribes (state (fst (run mount (flat_map alone (ds ++ [d]))))) = grants d /\
  Dashboard.screen
    (state (fst (run mount [Deliver adminDelivery; Deliver (mkDelivery None DocMissing true);
                            Resume 0])))
    = Dashboard.Panel.
Proof.
  split; [reflexivity|]. rewrite <- and_assoc. split; [|reflexivity].
  rewrite flat_map_app, run_app. cbn [fst flat_map]. rewrite app_nil_r.
  set (s := fst (run mount (flat_map alone ds))).
  assert (Hp : pending s = []) by (apply turns_leave_nothing_waiting; reflexivity).
  rewrite (alone_runs_listener s d Hp). cbn [fst state].
  destruct (callback_verdict (captured s) d (state s)) as (Hadmin & Hcheck & Hyes & Hno).
  unfold Dashboard.screen, Dashboard.subscribes. rewrite Hadmin, Hcheck.
  destruct (grants d).
  - destruct (Hyes eq_refl) as (u & _ & ->). split; reflexivity.
  - rewrite (Hno eq_refl). split; reflexivity.
Qed.

(* ===================================================================== *)
(** * Further properties of the upload form *)
(* ===================================================================== *)

Ltac run_submission :=
  unfold UploadForm.onSubmit, UploadForm.verifyAdmin, UploadForm.submitBody,
    UploadForm.showToast, UploadForm.write, bind, tryCatch, finally, emit, ret, throw, trace.

(** X10. A submission that creates a project, passes the role check and
    has no file selected ends with the error that asks for a file: nothing
    is uploaded and nothing is written. *)
Theorem create_needs_a_file (env : UploadForm.Env) (props : UploadForm.Props) (u : User.t)
        (selectedType : ProjectType) (data : IFormInput.t) :
  UploadForm.user props = Some u ->
  UploadForm.userDoc env = DocExists (Some "admin") ->
  UploadForm.initialData props = None ->
  trace (UploadForm.onSubmit env props [] selectedType data)
  = [GetDoc "users" (User.uid u); SetIsLoading true; SetUploadProgress 0;
     ConsoleError "Upload Error:"; ShowToast error "Please select at least one file";
     SetUploadProgress 0; SetIsLoading false].
Proof.
  intros Hu Hdoc Hinit. run_submission. rewrite Hu, Hdoc, Hinit. reflexivity.
Qed.

Lemma create_needs_a_file_witness :
  trace (UploadForm.onSubmit sampleEnv createProps [] graphics posterInput)
  = [GetDoc "users" (User.uid adminUser); SetIsLoading true; SetUploadProgress 0;
     ConsoleError "Upload Error:"; ShowToast error "Please select at least one file";
     SetUploadProgress 0; SetIsLoading false].
Proof.
  apply (create_needs_a_file sampleEnv createProps adminUser graphics posterInput);
    reflexivity.
Defined.

(** X11. A submission that edits a project, passes the role check and has
    no file selected uploads nothing and issues one update, of that
    project, whose media are the stored ones (none when the project has no
    media array). *)
Theorem edit_keeps_media (env : UploadForm.Env) (props : UploadForm.Props) (u : User.t)
        (p : Project.t) (selectedType : ProjectType) (data : IFormInput.t) :
  UploadForm.user props = Some u ->
  UploadForm.userDoc env = DocExists (Some "admin") ->
  UploadForm.initialData props = Some p ->
  exists record,
    filter UploadForm.isMutation
      (trace (UploadForm.onSubmit env props [] selectedType data))
      = [UpdateDoc "projects" (Project.id p) record] /\
    ProjectData.media record = items (Project.media p).
Proof.
  intros Hu Hdoc Hinit.
  exists (UploadForm.projectData u (Some p) data (items (Project.media p))).
  split; [|reflexivity].
  run_submission. rewrite Hu, Hdoc, Hinit.
  destruct (UploadForm.updateDocResult env); destruct (UploadForm.hasOnFinish props);
    reflexivity.
Qed.

Lemma edit_keeps_media_witness :
  exists record,
    filter UploadForm.isMutation
      (trace (UploadForm.onSubmit sampleEnv editProps [] graphics retypedInput))
      = [UpdateDoc "projects" (Project.id storedSite) record] /\
    ProjectData.media record = items (Project.media storedSite).
Proof.
  apply (edit_keeps_media sampleEnv editProps adminUser storedSite graphics retypedInput);
    reflexivity.
Defined.

Lemma len_positive {A : Type} (l : list A) : l <> [] -> (0 <? len l) = true.
Proof.
  intros H. apply Z.ltb_lt. unfold len. destruct l; [congruence | simpl; lia].
Qed.



(** X13. When the configuration of the media host is missing, a submission
    that passes the role check and whose first file is within the cap ends
    with the configuration error before any request to the media host, and
    writes nothing. *)
Theorem missing_configuration_stops (env : UploadForm.Env) (props : UploadForm.Props)
        (u : User.t) (file : File.t) (rest : list File.t) (selectedType : ProjectType)
        (data : IFormInput.t) :
  UploadForm.user props = Some u ->
  UploadForm.userDoc env = DocExists (Some "admin") ->
  File.size file <= UploadForm.maxSize selectedType ->
  truthy (UploadForm.cloudName env) = false \/ truthy (UploadForm.preset env) = false ->
  trace (UploadForm.onSubmit env props (file :: rest) selectedType data)
  = [GetDoc "users" (User.uid u); SetIsLoading true; SetUploadProgress 0;
     ShowToast warning "Uploading media..."; ConsoleError "Upload Error:";
     ShowToast error
       "Cloudinary configuration missing. Please check your environment variables.";
     SetUploadProgress 0; SetIsLoading false].
Proof.
  intros Hu Hdoc Hsize Hconfig.
  assert (Hcheck : (File.size file >? UploadForm.maxSize selectedType) = false)
    by (rewrite Z.gtb_ltb; apply Z.ltb_ge; exact Hsize).
  assert (Hmissing : (negb (truthy (UploadForm.cloudName env))
                      || negb (truthy (UploadForm.preset env)))%bool = true).
  { destruct Hconfig as [-> | ->]; [reflexivity | apply orb_true_r]. }
  unfold UploadForm.onSubmit, UploadForm.verifyAdmin, UploadForm.submitBody.
  rewrite Hu, Hdoc.
  replace (0 <? len (file :: rest)) with true
    by (symmetry; apply len_positive; discriminate).
  cbn [UploadForm.uploadLoop]. rewrite Hcheck.
  unfold UploadForm.uploadToCloudinary, UploadForm.validateCloudinaryConfig.
  rewrite Hmissing. reflexivity.
Qed.

Lemma missing_configuration_stops_witness :
  trace (UploadForm.onSubmit unconfiguredEnv createProps [smallFile] graphics posterInput)
  = [GetDoc "users" (User.uid adminUser); SetIsLoading true; SetUploadProgress 0;
     ShowToast warning "Uploading media..."; ConsoleError "Upload Error:";
     ShowToast error
       "Cloudinary configuration missing. Please check your environment variables.";
     SetUploadProgress 0; SetIsLoading false].
Proof.
  apply (missing_configuration_stops unconfiguredEnv createProps adminUser smallFile []
           graphics posterInput); try reflexivity.
  - vm_compute. discriminate.
  - left. reflexivity.
Defined.

(** X14. No submission leaves the form loading: whenever [isLoading] is
    set, the last thing that the submission does is to clear it, whatever
    fails in between. *)
Theorem loading_always_cleared (env : UploadForm.Env) (props : UploadForm.Props)
        (selectedFiles : list File.t) (selectedType : ProjectType) (data : IFormInput.t) :
  In (SetIsLoading true)
     (trace (UploadForm.onSubmit env props selectedFiles selectedType data)) ->
  exists before,
    trace (UploadForm.onSubmit env props selectedFiles selectedType data)
    = before ++ [SetIsLoading false].
Proof.
  unfold UploadForm.onSubmit, UploadForm.verifyAdmin, UploadForm.showToast, trace.
  destruct (UploadForm.user props) as [u|]; [|cbn; intros H; scan_log H].
  destruct (UploadForm.userDoc env) as [| |role];
    try solve [cbn; intros H; scan_log H].
  destruct (roleIsAdmin role); [|cbn; intros H; scan_log H].
  intros _. unfold bind, emit, ret, finally. cbn [fst snd negb app].
  match goal with |- context [tryCatch ?m ?h] => destruct (tryCatch m h) as [l r] end.
  exists (GetDoc "users" (User.uid u) :: SetIsLoading true :: SetUploadProgress 0 :: l).
  reflexivity.
Qed.

Lemma loading_always_cleared_witness :
  exists before,
    trace (UploadForm.onSubmit refusingHostEnv createProps [smallFile] graphics posterInput)
    = before ++ [SetIsLoading false].
Proof.
  apply (loading_always_cleared refusingHostEnv createProps [smallFile] graphics posterInput).
  vm_compute. right. left. reflexivity.
Defined.

Lemma uploadLoop_writes_nothing (env : UploadForm.Env) (selectedType : ProjectType)
      (files : list File.t) (e : Event) :
  In e (fst (UploadForm.uploadLoop env selectedType files [])) -> isWrite e = false.
Proof.
  intros H. apply uploadLoop_events in H. destruct e; simpl in *; tauto.
Qed.

Lemma quietAfterWrite_app (l rest : list Event) :
  (forall e, In e l -> isWrite e = false) ->
  quietAfterWrite (l ++ rest) = quietAfterWrite rest.
Proof.
  induction l as [|e l IH]; intros H; [reflexivity|].
  simpl. rewrite (H e (or_introl eq_refl)). apply IH.
  intros e' He'. apply H. right. exact He'.
Qed.

Lemma writes_app (l rest : list Event) :
  (forall e, In e l -> isWrite e = false) ->
  filter isWrite (l ++ rest) = filter isWrite rest.
Proof.
  induction l as [|e l IH]; intros H; [reflexivity|].
  simpl. rewrite (H e (or_introl eq_refl)). apply IH.
  intros e' He'. apply H. right. exact He'.
Qed.

(** X15. In every submission the record is written last and once: there
    is at most one create or update, and once it is issued no request goes
    to the media host any more. *)
Theorem write_comes_last (env : UploadForm.Env) (props : UploadForm.Props)
        (selectedFiles : list File.t) (selectedType : ProjectType) (data : IFormInput.t) :
  quietAfterWrite (trace (UploadForm.onSubmit env props selectedFiles selectedType data))
    = true /\
  (List.length (filter isWrite
     (trace (UploadForm.onSubmit env props selectedFiles selectedType data))) <= 1)%nat.
Proof.
  pose proof (uploadLoop_writes_nothing env selectedType selectedFiles) as Hloop.
  unfold UploadForm.onSubmit, UploadForm.verifyAdmin, UploadForm.submitBody,
    UploadForm.showToast, UploadForm.write, trace.
  destruct (UploadForm.user props) as [u|]; [|split; [reflexivity | simpl; lia]].
  destruct (UploadForm.userDoc env) as [| |role];
    try solve [split; [reflexivity | simpl; lia]].
  destruct (roleIsAdmin role); [|split; [reflexivity | simpl; lia]].
  destruct (0 <? len selectedFiles);
    [destruct (UploadForm.uploadLoop env selectedType selectedFiles []) as [l [media|message]]|];
    destruct (UploadForm.initialData props) as [p|];
    destruct (UploadForm.updateDocResult env);
    destruct (UploadForm.addDocResult env);
    destruct (UploadForm.hasOnFinish props);
    cbn -[quietAfterWrite filter];
    rewrite <- ?app_assoc;
    cbn [quietAfterWrite filter isWrite];
    rewrite ?(quietAfterWrite_app l) by exact Hloop;
    rewrite ?(writes_app l) by exact Hloop;
    split; solve [reflexivity | simpl; lia].
Qed.















(** No-break spaces around a comma are trimmed like the ordinary space, and
    a piece made of white space only gives no tag. *)
Example tags_no_break_space :
  UploadForm.tagsArray (IFormInput.mk "t" None graphics None (Some nbspTags))
  = ["ux"; "motion"].
Proof. reflexivity. Qed.

(** The tags field of the sample form, as typed and as written. *)
Example tags_sample :
  UploadForm.tagsArray
    (IFormInput.mk "t" None graphics None (Some " react ,, ui design , "))
  = ["react"; "ui design"].
Proof. reflexivity. Qed.

(* ===================================================================== *)
(** * Properties of the login page *)
(* ===================================================================== *)

Lemma errorFor_not_empty (code : option string) : LoginPage.errorFor code <> EmptyString.
Proof.
  unfold LoginPage.errorFor.
  destruct (LoginPage.codeIs code "auth/invalid-credential"
            || LoginPage.codeIs code "auth/user-not-found"
            || LoginPage.codeIs code "auth/wrong-password")%bool; [discriminate|].
  destruct (LoginPage.codeIs code "auth/too-many-requests"); discriminate.
Qed.

(** X19. A login attempt signs in exactly once, first of all and with the
    email and password of the form. It navigates exactly once, to the
    dashboard, when the sign-in succeeds, and not at all when it fails;
    after a success it shows no error and stays busy. When the sign-in
    fails it stops being busy and shows a message that is never empty; an
    unknown user, a wrong password and an invalid credential all give the
    same message. *)
Theorem login_outcome (r : LoginPage.SignInResult) (st : LoginPage.State) :
  let result := LoginPage.handleLogin r st in
  hd_error (snd result)
    = Some (LoginPage.SignInWithEmailAndPassword (LoginPage.email st) (LoginPage.password st)) /\
  List.length (filter LoginPage.isSignIn (snd result)) = 1%nat /\
  filter LoginPage.isPush (snd result)
    = match r with
      | LoginPage.SignedIn => [LoginPage.Push "/admin"]
      | LoginPage.SignInFails _ => []
      end /\
  (In (LoginPage.Push "/admin") (snd result) <-> r = LoginPage.SignedIn) /\
  (r = LoginPage.SignedIn ->
     LoginPage.error (fst result) = EmptyString /\ LoginPage.isLoading (fst result) = true) /\
  (forall code, r = LoginPage.SignInFails code ->
     LoginPage.isLoading (fst result) = false /\
     LoginPage.error (fst result) <> EmptyString /\
     (In code [Some "auth/invalid-credential"; Some "auth/user-not-found";
               Some "auth/wrong-password"] ->
      LoginPage.error (fst result) = "Invalid email or password.")).
Proof.
  destruct r as [|code0]; simpl; repeat split; try tauto; try discriminate.
  - intros [H|[H|[]]]; discriminate H.
  - injection H as <-. apply errorFor_not_empty.
  - injection H as <-. intros [<-|[<-|[<-|[]]]]; reflexivity.
Qed.

(* ===================================================================== *)
(** * Properties of the toasts *)
(* ===================================================================== *)

Lemma dismiss_fresh (id : Z) (prev : list ToastMessage.t) :
  Forall (fun t => ToastMessage.id t <> id) prev -> UseToast.dismiss id prev = prev.
Proof.
  unfold UseToast.dismiss. induction 1 as [|t prev Ht _ IH]; [reflexivity|].
  simpl. destruct (Z.eqb_spec (ToastMessage.id t) id); [contradiction|].
  simpl. rewrite IH. reflexivity.
Qed.

(** X20. When the timer of a toast fires, the toast is gone and the toasts
    with another id stay, in their order: if no other toast has its id,
    the list is back to what it was before the toast was shown. The id is
    the time of the call in milliseconds, so toasts shown within the same
    millisecond share it and all go when the first of their timers
    fires. *)
Theorem toast_dismissed_by_id (now : Z) (type : ToastType) (message : string)
        (prev : list ToastMessage.t) :
  UseToast.dismiss now (UseToast.showToast now type message prev) = UseToast.dismiss now prev /\
  (Forall (fun t => ToastMessage.id t <> now) prev ->
   UseToast.dismiss now (UseToast.showToast now type message prev) = prev) /\
  (forall type' message',
     UseToast.dismiss now
       (UseToast.showToast now type' message' (UseToast.showToast now type message prev))
     = UseToast.dismiss now prev).
Proof.
  assert (Hone : forall ty msg l,
            UseToast.dismiss now (UseToast.showToast now ty msg l) = UseToast.dismiss now l).
  { intros ty msg l. unfold UseToast.dismiss, UseToast.showToast.
    rewrite filter_app. simpl. rewrite Z.eqb_refl. simpl. apply app_nil_r. }
  split; [apply Hone|]. split.
  - intros Hfresh. rewrite Hone. apply dismiss_fresh. exact Hfresh.
  - intros type' message'. rewrite !Hone. reflexivity.
Qed.

(* ===================================================================== *)
(** * Properties of the dashboard *)
(* ===================================================================== *)

(** X21. Deleting a project always asks first. The delete is issued
    exactly when the question is confirmed, for the project asked about;
    the preview is closed exactly when the delete went through, whichever
    project is on preview, and is left as it is when the question is
    declined or the delete fails. *)
Theorem delete_needs_confirmation (confirmed deleted : bool) (projectId projectTitle : string)
        (previewProject : option Project.t) :
  let result :=
    Dashboard.handleDeleteProject confirmed deleted projectId projectTitle previewProject in
  hd_error (snd result) = Some (Dashboard.Confirm (Dashboard.confirmMessage projectTitle)) /\
  filter Dashboard.isDelete (snd result)
    = (if confirmed then [Dashboard.DeleteDoc "projects" projectId] else []) /\
  fst result = (if (confirmed && deleted)%bool then None else previewProject).
Proof.
  destruct confirmed, deleted; repeat split.
Qed.

Lemma subscription_cons (m : Dashboard.Mirror) (ev : Dashboard.SnapshotEvent)
      (evs : list Dashboard.SnapshotEvent) :
  Dashboard.subscription m (ev :: evs)
  = (fst (Dashboard.subscription (fst (Dashboard.onSnapshot m ev)) evs),
     snd (Dashboard.onSnapshot m ev)
       ++ snd (Dashboard.subscription (fst (Dashboard.onSnapshot m ev)) evs)).
Proof. reflexivity. Qed.

(** X22. The list of projects of the dashboard is the last snapshot
    received: every snapshot replaces it as a whole, and an error of the
    subscription leaves it as it is and is reported once. Loading ends with
    the first event of either kind. *)
Theorem mirror_follows_snapshots (evs : list Dashboard.SnapshotEvent) (m : Dashboard.Mirror) :
  Dashboard.projects (fst (Dashboard.subscription m evs))
    = lastSnapshot evs (Dashboard.projects m) /\
  Dashboard.loadingProjects (fst (Dashboard.subscription m evs))
    = match evs with [] => Dashboard.loadingProjects m | _ :: _ => false end /\
  List.length (filter UploadForm.isToast (snd (Dashboard.subscription m evs)))
    = List.length (filter isSnapshotError evs).
Proof.
  revert m. induction evs as [|ev evs IH]; intros m; [repeat split|].
  rewrite subscription_cons. cbn [fst snd].
  destruct (IH (fst (Dashboard.onSnapshot m ev))) as (Hp & Hl & Ht).
  rewrite Hp, Hl, filter_app, length_app, Ht.
  destruct ev as [docs|]; simpl; repeat split; destruct evs; reflexivity.
Qed.

(* ===================================================================== *)
(** * Properties of the public page *)
(* ===================================================================== *)

Lemma ProjectType_eqb_eq (a b : ProjectType) : ProjectType_eqb a b = true <-> a = b.
Proof. destruct a, b; simpl; split; congruence. Qed.

(** X23. The tabs of the list of all projects sort the projects without
    loss: a project is under a tab exactly when it is a project of that
    type, and the three counts add up to the number of projects. The home
    page shows the first six projects at most, in their order. *)
Theorem tabs_partition_projects (projects : list Project.t) :
  (forall tab p, In p (Portfolio.filteredProjects projects tab)
                 <-> In p projects /\ Project.type p = tab) /\
  Portfolio.tabCount projects graphics + Portfolio.tabCount projects motion
    + Portfolio.tabCount projects frontend = len projects /\
  len (Portfolio.homeCards projects) <= 6 /\
  Portfolio.homeCards projects ++ skipn 6 projects = projects.
Proof.
  split; [|split; [|split]].
  - intros tab p. unfold Portfolio.filteredProjects. rewrite filter_In, ProjectType_eqb_eq.
    reflexivity.
  - unfold Portfolio.tabCount, len. induction projects as [|p ps IH]; [reflexivity|].
    cbn [filter]. destruct (Project.type p); cbn [ProjectType_eqb List.length]; lia.
  - unfold Portfolio.homeCards, len. rewrite length_firstn. lia.
  - apply firstn_skipn.
Qed.

(** X24. The contact form sends nothing while a submission is in flight.
    Otherwise it first sends the visitor's message to the owner, and sends
    the automatic reply exactly when that went through. Only when both went
    through does it report success and clear the form; in every other case
    it reports the error, keeps what the visitor typed and goes back to
    idle after three seconds, also when the message to the owner had
    already been sent. *)
Theorem contact_submission (ownerOk replyOk : bool) (st : Portfolio.Contact) :
  let result := Portfolio.submitContact ownerOk replyOk st in
  (Portfolio.submitStatus st = Portfolio.sending -> result = (st, [])) /\
  (Portfolio.submitStatus st <> Portfolio.sending ->
     hd_error (snd result)
       = Some (Portfolio.SendToOwner (Portfolio.name (Portfolio.form st))
                 (Portfolio.email (Portfolio.form st))
                 (Portfolio.message (Portfolio.form st))) /\
     existsb Portfolio.isAutoReply (snd result) = ownerOk /\
     fst result
       = (if (ownerOk && replyOk)%bool
          then Portfolio.mkContact (Portfolio.mkForm EmptyString EmptyString EmptyString)
                                   Portfolio.success
          else Portfolio.mkContact (Portfolio.form st) Portfolio.error) /\
     (In (Portfolio.IdleAfter 3000) (snd result) <-> (ownerOk && replyOk)%bool = false)).
Proof.
  unfold Portfolio.submitContact, Portfolio.submitStart, Portfolio.submitSettle.
  destruct st as [form status]. simpl. split.
  - intros ->. reflexivity.
  - intros Hstatus.
    assert (Hs : Portfolio.isSending status = false)
      by (destruct status; try reflexivity; congruence).
    rewrite Hs. destruct ownerOk, replyOk; simpl; repeat split;
      try (intros H; scan_log H; fail); try discriminate; auto 10.
Qed.

Lemma contact_submission_witness :
  let st := Portfolio.mkContact (Portfolio.mkForm "Ada" "ada@example.org" "Hello")
                                Portfolio.idle in
  let result := Portfolio.submitContact true false st in
  hd_error (snd result) = Some (Portfolio.SendToOwner "Ada" "ada@example.org" "Hello") /\
  existsb Portfolio.isAutoReply (snd result) = true /\
  fst result = Portfolio.mkContact (Portfolio.form st) Portfolio.error /\
  (In (Portfolio.IdleAfter 3000) (snd result) <-> (true && false)%bool = false).
Proof.
  apply (proj2 (contact_submission true false
                  (Portfolio.mkContact (Portfolio.mkForm "Ada" "ada@example.org" "Hello")
                                       Portfolio.idle))).
  discriminate.
Defined.
